(** * Monthly payslip reports: the reconciliation engine of ReportManager.tsx

    A shallow embedding of [src/components/ReportManager.tsx]: the monthly
    report of one employee ([generateMonthlyReport]), the balance display
    helper ([formatBalance]), the employee search ([filteredEmployees]) and
    the text of the payslip built by [downloadReport].

    Conventions of the model.
    - Amounts of money are integers ([Z]); the source holds them in JavaScript
      numbers, which are exact on integers below 2^53.  An optional number
      ([customAmount?: number]) is an [option Z], and the truthiness test of
      the source ([if (record.customAmount)]) is false on [None] and on
      [Some 0].
    - Strings are [string]s of 8-bit characters.
    - A [Date] is its time value in milliseconds since the epoch, or [None]
      for an Invalid Date; the functions of [JSDate] follow the abstract
      operations of ECMAScript (MakeDay, LocalTime, UTC, the date-only ISO
      format).  The time zone of the browser is a fixed offset [tza], the
      LocalTZA of ECMAScript in milliseconds (India: +05:30, no daylight
      saving time). *)

From Stdlib Require Import ZArith List Bool Ascii String Lia.
From Stdlib Require Import Numbers.DecimalString Sorting.Permutation.
Import ListNotations.

Local Open Scope Z_scope.

(** ** JavaScript dates *)

Module JSDate.

Definition msPerDay : Z := 86400000.
Definition msPerMinute : Z := 60000.

(** Number of the day (days since 1970-01-01) of the civil date
    [y]-[m]-[d] of the proleptic Gregorian calendar, [m] counted from 1.
    A day beyond the end of the month runs into the next month. *)
Definition days_from_civil (y m d : Z) : Z :=
  let y' := if m <=? 2 then y - 1 else y in
  let era := y' / 400 in
  let yoe := y' - era * 400 in
  let mp := (m + 9) mod 12 in
  let doy := (153 * mp + 2) / 5 + d - 1 in
  let doe := yoe * 365 + yoe / 4 - yoe / 100 + doy in
  era * 146097 + doe - 719468.

(** The civil date (year, month from 1, day of the month) of a day number. *)
Definition civil_from_days (z : Z) : Z * Z * Z :=
  let z' := z + 719468 in
  let era := z' / 146097 in
  let doe := z' - era * 146097 in
  let yoe := (doe - doe / 1460 + doe / 36524 - doe / 146096) / 365 in
  let doy := doe - (365 * yoe + yoe / 4 - yoe / 100) in
  let mp := (5 * doy + 2) / 153 in
  let d := doy - (153 * mp + 2) / 5 + 1 in
  let m := if mp <? 10 then mp + 3 else mp - 9 in
  let y := yoe + era * 400 in
  ((if m <=? 2 then y + 1 else y), m, d).

(** ECMAScript [Day(t)]. *)
Definition Day (t : Z) : Z := t / msPerDay.

(** ECMAScript [MakeDay(year, month, date)], [month] counted from 0 and
    free to leave 0..11, [date] free to leave the month. *)
Definition MakeDay (year month date : Z) : Z :=
  let ym := year + month / 12 in
  let mn := month mod 12 in
  days_from_civil ym (mn + 1) 1 + date - 1.

(** ECMAScript [LocalTime(t)] and [UTC(t)] in a zone of fixed offset. *)
Definition LocalTime (tza t : Z) : Z := t + tza.
Definition UTC (tza t : Z) : Z := t - tza.

Definition YearFromTime (t : Z) : Z :=
  let '(y, _, _) := civil_from_days (Day t) in y.

(** ECMAScript [MonthFromTime(t)], counted from 0. *)
Definition MonthFromTime (t : Z) : Z :=
  let '(_, m, _) := civil_from_days (Day t) in m - 1.

(** A [Date] object: its time value, [None] when the date is invalid. *)
Definition Date : Type := option Z.

Definition digit (c : ascii) : option Z :=
  let n := Z.of_N (N_of_ascii c) in
  if (48 <=? n) && (n <=? 57) then Some (n - 48) else None.

Definition digits2 (a b : ascii) : option Z :=
  match digit a, digit b with
  | Some x, Some y => Some (10 * x + y)
  | _, _ => None
  end.

Definition digits4 (a b c d : ascii) : option Z :=
  match digits2 a b, digits2 c d with
  | Some x, Some y => Some (100 * x + y)
  | _, _ => None
  end.

(** [new Date(s)] on a string holding a date of the date-only ISO form
    [YYYY-MM-DD]: midnight UTC of that day.  The month must lie in 1..12
    and the day in 1..31 (a day past the end of the month runs on, as in
    V8).  Strings of another form are outside the model and count as
    Invalid Date. *)
Definition parse (s : string) : Date :=
  match s with
  | String y1 (String y2 (String y3 (String y4 (String "-"
      (String m1 (String m2 (String "-"
        (String d1 (String d2 EmptyString))))))))) =>
      match digits4 y1 y2 y3 y4, digits2 m1 m2, digits2 d1 d2 with
      | Some y, Some m, Some d =>
          if (1 <=? m) && (m <=? 12) && (1 <=? d) && (d <=? 31)
          then Some (MakeDay y (m - 1) d * msPerDay)
          else None
      | _, _, _ => None
      end
  | _ => None
  end.

(** [d.getFullYear()] and [d.getMonth()]: local fields, NaN when invalid. *)
Definition getFullYear (tza : Z) (d : Date) : option Z :=
  option_map (fun t => YearFromTime (LocalTime tza t)) d.

Definition getMonth (tza : Z) (d : Date) : option Z :=
  option_map (fun t => MonthFromTime (LocalTime tza t)) d.

(** [new Date(year, month, date)]: local midnight of the day
    [MakeDay(year, month, date)]; a year in 0..99 means 1900 + year; a NaN
    argument gives an Invalid Date. *)
Definition fromFields (tza : Z) (year month date : option Z) : Date :=
  match year, month, date with
  | Some y, Some m, Some dt =>
      let yr := if (0 <=? y) && (y <=? 99) then 1900 + y else y in
      Some (UTC tza (MakeDay yr m dt * msPerDay))
  | _, _, _ => None
  end.

(** [a >= b] and [a <= b] on dates: the comparison of the time values,
    false as soon as one of them is NaN. *)
Definition geb (a b : Date) : bool :=
  match a, b with
  | Some x, Some y => y <=? x
  | _, _ => false
  end.

Definition leb (a b : Date) : bool :=
  match a, b with
  | Some x, Some y => x <=? y
  | _, _ => false
  end.

(** Offsets of some zones. *)
Definition tzUTC : Z := 0.
Definition tzIST : Z := 330 * msPerMinute.
Definition tzNewYork : Z := - (300 * msPerMinute).

End JSDate.

(** ** JavaScript strings *)

Module JSString.

Local Open Scope string_scope.

(** The line feed that separates the lines of a template literal. *)
Definition nl : string := String (ascii_of_nat 10) EmptyString.

(** The multiplication sign U+00D7 of the payslip, in UTF-8. *)
Definition times_sign : string :=
  String (ascii_of_nat 195) (String (ascii_of_nat 151) EmptyString).

(** [`${n}`] on a length. *)
Definition of_nat (n : nat) : string := NilZero.string_of_uint (Nat.to_uint n).

Definition lower_ascii (c : ascii) : ascii :=
  let n := nat_of_ascii c in
  if (Nat.leb 65 n && Nat.leb n 90)%bool then ascii_of_nat (n + 32) else c.

(** [s.toLowerCase()], on the letters A..Z; the other characters stay. *)
Fixpoint toLowerCase (s : string) : string :=
  match s with
  | EmptyString => EmptyString
  | String c s' => String (lower_ascii c) (toLowerCase s')
  end.

(** [s.includes(t)]: [t] occurs in [s] at some position. *)
Fixpoint includes (s t : string) : bool :=
  String.prefix t s ||
  match s with
  | EmptyString => false
  | String _ s' => includes s' t
  end.

(** [xs.join(sep)]. *)
Definition join (sep : string) (xs : list string) : string :=
  String.concat sep xs.

(** The lines of a text: the pieces between its line feeds. *)
Fixpoint lines_from (cur : string) (s : string) : list string :=
  match s with
  | EmptyString => [cur]
  | String c s' =>
      if Ascii.eqb c (ascii_of_nat 10)
      then cur :: lines_from EmptyString s'
      else lines_from (cur ++ String c EmptyString) s'
  end.

Definition lines (s : string) : list string := lines_from EmptyString s.

(** [s] holds no line feed. *)
Fixpoint one_line (s : string) : bool :=
  match s with
  | EmptyString => true
  | String c s' => negb (Ascii.eqb c (ascii_of_nat 10)) && one_line s'
  end.

End JSString.

(** ** The data model ([../types], from the fields the component reads) *)

Record Employee := {
  id : string;
  name : string;
  designation : string;
  dailyWage : Z;
  contactNumber : string
}.

Record AttendanceRecord := {
  att_employeeId : string;
  att_date : string;
  present : bool;
  customType : option string;
  customAmount : option Z
}.

Record Advance := {
  adv_employeeId : string;
  adv_amount : Z;
  adv_date : string;
  adv_description : string
}.

Record SalaryPayment := {
  pay_employeeId : string;
  pay_amount : Z;
  paymentDate : string;
  pay_description : string
}.

Record MonthlyReport := {
  employeeId : string;
  month : string;
  totalDaysWorked : nat;
  baseWages : Z;
  additionalEarnings : Z;
  totalWagesEarned : Z;
  totalAdvancesTaken : Z;
  totalSalaryPaid : Z;
  finalAmount : Z;
  attendanceDetails : list AttendanceRecord;
  advanceDetails : list Advance;
  salaryPaymentDetails : list SalaryPayment;
  otRecords : list AttendanceRecord;
  halfDayRecords : list AttendanceRecord;
  customPaymentRecords : list AttendanceRecord
}.

(** The collections the component reads: its props [employees], [attendance]
    and [advances], and the [salaryPayments] of the Firestore hook. *)
Record Ledgers := {
  employees : list Employee;
  attendance : list AttendanceRecord;
  advances : list Advance;
  salaryPayments : list SalaryPayment
}.

(** ** The reconciliation engine *)

(** Truthiness of an optional number: [undefined] and [0] are falsy. *)
Definition truthy_number (n : option Z) : bool :=
  match n with
  | Some v => negb (v =? 0)
  | None => false
  end.

(** Truthiness of an optional string: [undefined] and [''] are falsy. *)
Definition truthy_string (s : option string) : bool :=
  match s with
  | Some v => negb (String.eqb v EmptyString)
  | None => false
  end.

(** [record.customAmount || 0]. *)
Definition amount_or_zero (n : option Z) : Z :=
  if truthy_number n then match n with Some v => v | None => 0 end else 0.

(** [record.customType === tag]. *)
Definition customType_is (tag : string) (record : AttendanceRecord) : bool :=
  match customType record with
  | Some s => String.eqb s tag
  | None => false
  end.

(** [const monthStart = new Date(month + '-01')]. *)
Definition monthStart (month : string) : JSDate.Date :=
  JSDate.parse (month ++ "-01").

(** [const monthEnd = new Date(monthStart.getFullYear(),
    monthStart.getMonth() + 1, 0)]. *)
Definition monthEnd (tza : Z) (month : string) : JSDate.Date :=
  let start := monthStart month in
  JSDate.fromFields tza
    (JSDate.getFullYear tza start)
    (option_map (fun m => m + 1) (JSDate.getMonth tza start))
    (Some 0).

(** The test shared by the three filters: the record is of the employee and
    its date lies between [monthStart] and [monthEnd]. *)
Definition in_month (tza : Z) (employeeId month : string)
    (recordEmployee recordDate : string) : bool :=
  let d := JSDate.parse recordDate in
  String.eqb recordEmployee employeeId
  && JSDate.geb d (monthStart month)
  && JSDate.leb d (monthEnd tza month).

Definition monthAttendance (tza : Z) (L : Ledgers) (employeeId month : string)
    : list AttendanceRecord :=
  filter (fun a => in_month tza employeeId month (att_employeeId a) (att_date a))
         (attendance L).

Definition monthAdvances (tza : Z) (L : Ledgers) (employeeId month : string)
    : list Advance :=
  filter (fun a => in_month tza employeeId month (adv_employeeId a) (adv_date a))
         (advances L).

Definition monthSalaryPayments (tza : Z) (L : Ledgers) (employeeId month : string)
    : list SalaryPayment :=
  filter (fun p => in_month tza employeeId month (pay_employeeId p) (paymentDate p))
         (salaryPayments L).

(** One turn of the [forEach] loop over the month's attendance, on the pair
    of accumulators [(baseWages, additionalEarnings)]. *)
Definition accumulate (employee : Employee) (acc : Z * Z)
    (record : AttendanceRecord) : Z * Z :=
  let '(base, additional) := acc in
  let base' := if present record then base + dailyWage employee else base in
  let additional' :=
    if truthy_number (customAmount record)
    then additional + match customAmount record with Some v => v | None => 0 end
    else additional in
  (base', additional').

(** [xs.reduce((sum, x) => sum + f(x), 0)]. *)
Definition reduce_sum {A : Type} (f : A -> Z) (xs : list A) : Z :=
  fold_left (fun sum x => sum + f x) xs 0.

Definition generateMonthlyReport (tza : Z) (L : Ledgers)
    (employeeId month : string) : option MonthlyReport :=
  match find (fun e => String.eqb (id e) employeeId) (employees L) with
  | None => None
  | Some employee =>
      let monthAttendance := monthAttendance tza L employeeId month in
      let monthAdvances := monthAdvances tza L employeeId month in
      let monthSalaryPayments := monthSalaryPayments tza L employeeId month in
      let totalDaysWorked := List.length (filter present monthAttendance) in
      let '(baseWages, additionalEarnings) :=
        fold_left (accumulate employee) monthAttendance (0, 0) in
      let totalWagesEarned := baseWages + additionalEarnings in
      let totalAdvancesTaken := reduce_sum adv_amount monthAdvances in
      let totalSalaryPaid := reduce_sum pay_amount monthSalaryPayments in
      let finalAmount := totalWagesEarned - totalAdvancesTaken - totalSalaryPaid in
      let otRecords := filter (customType_is "ot") monthAttendance in
      let halfDayRecords := filter (customType_is "half-day") monthAttendance in
      let customPaymentRecords := filter (customType_is "custom") monthAttendance in
      Some {|
        employeeId := employeeId;
        month := month;
        totalDaysWorked := totalDaysWorked;
        baseWages := baseWages;
        additionalEarnings := additionalEarnings;
        totalWagesEarned := totalWagesEarned;
        totalAdvancesTaken := totalAdvancesTaken;
        totalSalaryPaid := totalSalaryPaid;
        finalAmount := finalAmount;
        attendanceDetails := monthAttendance;
        advanceDetails := monthAdvances;
        salaryPaymentDetails := monthSalaryPayments;
        otRecords := otRecords;
        halfDayRecords := halfDayRecords;
        customPaymentRecords := customPaymentRecords
      |}
  end.

(** ** The engine on the store of the component

    The collections of the component are JavaScript arrays of objects. To
    say what an invocation does to them, the engine is written once more
    over a store: a list of objects addressed by their position, in which a
    record, an array and a report each are one object, and an array holds
    the locations of its elements.  A computation takes a store and gives a
    result and a store, or nothing when it throws (a read at a location
    that does not hold an object of the expected kind). *)

Module Store.

Definition loc : Type := nat.

(** The object a report is: the numbers, and the locations of the six
    arrays. *)
Record ReportObject := {
  ro_employeeId : string;
  ro_month : string;
  ro_totalDaysWorked : nat;
  ro_baseWages : Z;
  ro_additionalEarnings : Z;
  ro_totalWagesEarned : Z;
  ro_totalAdvancesTaken : Z;
  ro_totalSalaryPaid : Z;
  ro_finalAmount : Z;
  ro_attendanceDetails : loc;
  ro_advanceDetails : loc;
  ro_salaryPaymentDetails : loc;
  ro_otRecords : loc;
  ro_halfDayRecords : loc;
  ro_customPaymentRecords : loc
}.

Inductive object : Type :=
| OEmployee (e : Employee)
| OAttendance (a : AttendanceRecord)
| OAdvance (a : Advance)
| OPayment (p : SalaryPayment)
| OArray (elements : list loc)
| OReport (r : ReportObject).

Definition store : Type := list object.

Definition M (A : Type) : Type := store -> option (A * store).

Definition ret {A : Type} (a : A) : M A := fun h => Some (a, h).

Definition bind {A B : Type} (m : M A) (k : A -> M B) : M B :=
  fun h => match m h with
           | Some (a, h') => k a h'
           | None => None
           end.

Notation "x <- m ;; k" := (bind m (fun x => k))
  (at level 61, m at next level, right associativity).

Definition as_employee (o : object) : option Employee :=
  match o with OEmployee e => Some e | _ => None end.

Definition as_attendance (o : object) : option AttendanceRecord :=
  match o with OAttendance a => Some a | _ => None end.

Definition as_advance (o : object) : option Advance :=
  match o with OAdvance a => Some a | _ => None end.

Definition as_payment (o : object) : option SalaryPayment :=
  match o with OPayment p => Some p | _ => None end.

Definition as_array (o : object) : option (list loc) :=
  match o with OArray elements => Some elements | _ => None end.

Definition as_report (o : object) : option ReportObject :=
  match o with OReport r => Some r | _ => None end.

(** Reading the object at a location as an object of one kind. *)
Definition load {A : Type} (as_ : object -> option A) (l : loc) : M A :=
  fun h => match nth_error h l with
           | Some o => match as_ o with
                       | Some a => Some (a, h)
                       | None => None
                       end
           | None => None
           end.

(** A new object, at a new location. *)
Definition alloc (o : object) : M loc :=
  fun h => Some (List.length h, h ++ [o]).

(** Writing an object over the one at a location. *)
Definition put (l : loc) (o : object) : M unit :=
  fun h => if Nat.ltb l (List.length h)
           then Some (tt, firstn l h ++ o :: skipn (S l) h)
           else None.

(** A callback that reads the fields of the element it is given:
    [x => f(x)] with [f] looking at the fields of [x] only. *)
Definition reading {A B : Type} (as_ : object -> option A) (f : A -> B)
    : loc -> M B :=
  fun l => a <- load as_ l ;; ret (f a).

Fixpoint filter_loop (p : loc -> M bool) (elements : list loc) : M (list loc) :=
  match elements with
  | [] => ret []
  | l :: rest =>
      keep <- p l ;;
      kept <- filter_loop p rest ;;
      ret (if keep then l :: kept else kept)
  end.

(** [array.filter(p)]: a new array with the elements that pass. *)
Definition Array_filter (array : loc) (p : loc -> M bool) : M loc :=
  elements <- load as_array array ;;
  kept <- filter_loop p elements ;;
  alloc (OArray kept).

Fixpoint find_loop (p : loc -> M bool) (elements : list loc) : M (option loc) :=
  match elements with
  | [] => ret None
  | l :: rest =>
      found <- p l ;;
      if found then ret (Some l) else find_loop p rest
  end.

(** [array.find(p)]: the first element that passes, or [undefined]. *)
Definition Array_find (array : loc) (p : loc -> M bool) : M (option loc) :=
  elements <- load as_array array ;;
  find_loop p elements.

Fixpoint reduce_loop {S : Type} (f : S -> loc -> M S) (elements : list loc)
    (acc : S) : M S :=
  match elements with
  | [] => ret acc
  | l :: rest => acc' <- f acc l ;; reduce_loop f rest acc'
  end.

(** [array.reduce(f, init)]. *)
Definition Array_reduce {S : Type} (array : loc) (f : S -> loc -> M S)
    (init : S) : M S :=
  elements <- load as_array array ;;
  reduce_loop f elements init.

(** [array.forEach(f)] for a callback that assigns to variables of the
    enclosing function: [vars] are their values before the loop, the result
    their values after it. *)
Definition Array_forEach {S : Type} (array : loc) (f : S -> loc -> M S)
    (vars : S) : M S :=
  elements <- load as_array array ;;
  reduce_loop f elements vars.

(** [array.length]. *)
Definition Array_length (array : loc) : M nat :=
  elements <- load as_array array ;;
  ret (List.length elements).

(** [array.reverse()], a method that writes to its array. *)
Definition Array_reverse (array : loc) : M loc :=
  elements <- load as_array array ;;
  _ <- put array (OArray (rev elements)) ;;
  ret array.

(** The locations of the four collections of the component. *)
Record Props := {
  p_employees : loc;
  p_attendance : loc;
  p_advances : loc;
  p_salaryPayments : loc
}.

Definition run_generateMonthlyReport (tza : Z) (P : Props)
    (employeeId month : string) : M (option loc) :=
  found <- Array_find (p_employees P)
             (reading as_employee (fun e => String.eqb (id e) employeeId)) ;;
  match found with
  | None => ret None
  | Some employee =>
      monthAttendance <- Array_filter (p_attendance P)
        (reading as_attendance (fun a =>
           in_month tza employeeId month (att_employeeId a) (att_date a))) ;;
      monthAdvances <- Array_filter (p_advances P)
        (reading as_advance (fun a =>
           in_month tza employeeId month (adv_employeeId a) (adv_date a))) ;;
      monthSalaryPayments <- Array_filter (p_salaryPayments P)
        (reading as_payment (fun p =>
           in_month tza employeeId month (pay_employeeId p) (paymentDate p))) ;;
      presentRecords <- Array_filter monthAttendance
                          (reading as_attendance present) ;;
      totalDaysWorked <- Array_length presentRecords ;;
      wages <- Array_forEach monthAttendance
                 (fun vars l =>
                    record <- load as_attendance l ;;
                    e <- load as_employee employee ;;
                    ret (accumulate e vars record))
                 (0, 0) ;;
      let '(baseWages, additionalEarnings) := wages in
      let totalWagesEarned := baseWages + additionalEarnings in
      totalAdvancesTaken <- Array_reduce monthAdvances
                              (fun sum l =>
                                 a <- load as_advance l ;;
                                 ret (sum + adv_amount a))
                              0 ;;
      totalSalaryPaid <- Array_reduce monthSalaryPayments
                           (fun sum l =>
                              p <- load as_payment l ;;
                              ret (sum + pay_amount p))
                           0 ;;
      let finalAmount := totalWagesEarned - totalAdvancesTaken - totalSalaryPaid in
      otRecords <- Array_filter monthAttendance
                     (reading as_attendance (customType_is "ot")) ;;
      halfDayRecords <- Array_filter monthAttendance
                          (reading as_attendance (customType_is "half-day")) ;;
      customPaymentRecords <- Array_filter monthAttendance
                                (reading as_attendance (customType_is "custom")) ;;
      report <- alloc (OReport {|
        ro_employeeId := employeeId;
        ro_month := month;
        ro_totalDaysWorked := totalDaysWorked;
        ro_baseWages := baseWages;
        ro_additionalEarnings := additionalEarnings;
        ro_totalWagesEarned := totalWagesEarned;
        ro_totalAdvancesTaken := totalAdvancesTaken;
        ro_totalSalaryPaid := totalSalaryPaid;
        ro_finalAmount := finalAmount;
        ro_attendanceDetails := monthAttendance;
        ro_advanceDetails := monthAdvances;
        ro_salaryPaymentDetails := monthSalaryPayments;
        ro_otRecords := otRecords;
        ro_halfDayRecords := halfDayRecords;
        ro_customPaymentRecords := customPaymentRecords
      |}) ;;
      ret (Some report)
  end.

(** [employees.filter(employee => ...)] of the search. *)
Definition run_filteredEmployees (P : Props) (searchTerm : string) : M loc :=
  Array_filter (p_employees P)
    (reading as_employee (fun employee =>
       JSString.includes (JSString.toLowerCase (name employee))
                         (JSString.toLowerCase searchTerm)
       || JSString.includes (JSString.toLowerCase (designation employee))
                            (JSString.toLowerCase searchTerm))).

(** *** What a store holds *)

Fixpoint read_all {A : Type} (as_ : object -> option A) (h : store)
    (elements : list loc) : option (list A) :=
  match elements with
  | [] => Some []
  | l :: rest =>
      match nth_error h l, read_all as_ h rest with
      | Some o, Some vs => option_map (fun v => v :: vs) (as_ o)
      | _, _ => None
      end
  end.

(** The elements of the array at a location, read as objects of one kind. *)
Definition read_array {A : Type} (as_ : object -> option A) (h : store)
    (array : loc) : option (list A) :=
  match nth_error h array with
  | Some (OArray elements) => read_all as_ h elements
  | _ => None
  end.

(** The collections of the component, as the store holds them. *)
Definition ledgers_of (h : store) (P : Props) : option Ledgers :=
  match read_array as_employee h (p_employees P),
        read_array as_attendance h (p_attendance P),
        read_array as_advance h (p_advances P),
        read_array as_payment h (p_salaryPayments P) with
  | Some es, Some atts, Some advs, Some pays =>
      Some {| employees := es; attendance := atts;
              advances := advs; salaryPayments := pays |}
  | _, _, _, _ => None
  end.

(** The report at a location, with its six arrays read. *)
Definition read_report (h : store) (l : loc) : option MonthlyReport :=
  match nth_error h l with
  | Some (OReport r) =>
      match read_array as_attendance h (ro_attendanceDetails r),
            read_array as_advance h (ro_advanceDetails r),
            read_array as_payment h (ro_salaryPaymentDetails r),
            read_array as_attendance h (ro_otRecords r),
            read_array as_attendance h (ro_halfDayRecords r),
            read_array as_attendance h (ro_customPaymentRecords r) with
      | Some atts, Some advs, Some pays, Some ots, Some halves, Some customs =>
          Some {|
            employeeId := ro_employeeId r;
            month := ro_month r;
            totalDaysWorked := ro_totalDaysWorked r;
            baseWages := ro_baseWages r;
            additionalEarnings := ro_additionalEarnings r;
            totalWagesEarned := ro_totalWagesEarned r;
            totalAdvancesTaken := ro_totalAdvancesTaken r;
            totalSalaryPaid := ro_totalSalaryPaid r;
            finalAmount := ro_finalAmount r;
            attendanceDetails := atts;
            advanceDetails := advs;
            salaryPaymentDetails := pays;
            otRecords := ots;
            halfDayRecords := halves;
            customPaymentRecords := customs
          |}
      | _, _, _, _, _, _ => None
      end
  | _ => None
  end.

(** What [generateMonthlyReport] has returned: [null], or the report at the
    location it has returned. *)
Definition read_result (h : store) (result : option loc)
    : option (option MonthlyReport) :=
  match result with
  | None => Some None
  | Some l => option_map Some (read_report h l)
  end.

(** The locations of the elements of the array at a location. *)
Definition elements_of (h : store) (array : loc) : list loc :=
  match nth_error h array with
  | Some (OArray elements) => elements
  | _ => []
  end.

(** A store that holds the ledgers and nothing else, with the locations of
    its four arrays. *)
Definition store_of (L : Ledgers) : store * Props :=
  let es := map OEmployee (employees L) in
  let atts := map OAttendance (attendance L) in
  let advs := map OAdvance (advances L) in
  let pays := map OPayment (salaryPayments L) in
  let n1 := List.length es in
  let n2 := (n1 + List.length atts)%nat in
  let n3 := (n2 + List.length advs)%nat in
  let n4 := (n3 + List.length pays)%nat in
  (es ++ atts ++ advs ++ pays
   ++ [OArray (seq 0 n1); OArray (seq n1 (List.length atts));
       OArray (seq n2 (List.length advs)); OArray (seq n3 (List.length pays))],
   {| p_employees := n4; p_attendance := S n4;
      p_advances := S (S n4); p_salaryPayments := S (S (S n4)) |}).

End Store.

(** ** Display, search and export *)

(** The collaborators of the display: [formatCurrency] of [utils/dateUtils]
    and the locale-dependent renderings of dates.
    - [toLocaleDateString s] is [new Date(s).toLocaleDateString('en-IN')];
    - [toLocaleMonthYear s] is [new Date(s).toLocaleDateString('en-IN',
      { month: 'long', year: 'numeric' })];
    - [today] is [new Date().toLocaleDateString('en-IN')]. *)
Class Formatter := {
  formatCurrency : Z -> string;
  toLocaleDateString : string -> string;
  toLocaleMonthYear : string -> string;
  today : string
}.

Section Display.

Context {F : Formatter}.

Local Open Scope string_scope.
Local Open Scope Z_scope.

Definition formatBalance (balance : Z) : string :=
  if balance =? 0 then formatCurrency 0
  else if 0 <? balance then "+" ++ formatCurrency balance
  else "+" ++ formatCurrency (Z.abs balance).

(** [records.reduce((sum, record) => sum + (record.customAmount || 0), 0)]. *)
Definition category_amount (records : list AttendanceRecord) : Z :=
  reduce_sum (fun record => amount_or_zero (customAmount record)) records.

(** One of the three conditional lines of the earnings breakdown:
    [records.length > 0 ? `label (n unit): amount` : '']. *)
Definition category_line (label unit : string)
    (records : list AttendanceRecord) : string :=
  if Nat.ltb 0 (List.length records)
  then label ++ " (" ++ JSString.of_nat (List.length records) ++ unit ++ "): "
       ++ formatCurrency (category_amount records)
  else "".

Definition attendance_line (a : AttendanceRecord) : string :=
  toLocaleDateString (att_date a) ++ ": "
  ++ (if present a then "Present" else "Absent")
  ++ (if truthy_string (customType a)
      then " (" ++ match customType a with Some t => t | None => "" end ++ ")"
      else "")
  ++ (if truthy_number (customAmount a)
      then " +" ++ formatCurrency
                     match customAmount a with Some v => v | None => 0 end
      else "").

Definition advance_line (a : Advance) : string :=
  toLocaleDateString (adv_date a) ++ ": " ++ formatCurrency (adv_amount a)
  ++ " - " ++ adv_description a.

Definition payment_line (p : SalaryPayment) : string :=
  toLocaleDateString (paymentDate p) ++ ": " ++ formatCurrency (pay_amount p)
  ++ " - " ++ pay_description p.

(** The template literal [reportContent] of [downloadReport], line by line:
    the line feeds of the template separate the entries of the list. *)
Definition reportContent (selectedMonth : string)
    (selectedEmployeeData : Employee) (monthlyReport : MonthlyReport) : string :=
  JSString.join JSString.nl [
    "";
    "MONTHLY PAYSLIP REPORT";
    "======================";
    "";
    "Employee Details:";
    "Name: " ++ name selectedEmployeeData;
    "Designation: " ++ designation selectedEmployeeData;
    "Contact: " ++ contactNumber selectedEmployeeData;
    "Daily Wage: " ++ formatCurrency (dailyWage selectedEmployeeData);
    "";
    "Report Period: " ++ toLocaleMonthYear selectedMonth;
    "";
    "EARNINGS BREAKDOWN:";
    "Base Wages (" ++ JSString.of_nat (totalDaysWorked monthlyReport)
      ++ " days " ++ JSString.times_sign ++ " "
      ++ formatCurrency (dailyWage selectedEmployeeData) ++ "): "
      ++ formatCurrency (baseWages monthlyReport);
    "Additional Earnings: " ++ formatCurrency (additionalEarnings monthlyReport);
    category_line "Overtime" " days" (otRecords monthlyReport);
    category_line "Half Days" " days" (halfDayRecords monthlyReport);
    category_line "Custom Payments" "" (customPaymentRecords monthlyReport);
    "Total Wages Earned: " ++ formatCurrency (totalWagesEarned monthlyReport);
    "";
    "DEDUCTIONS:";
    "Advances Taken: " ++ formatCurrency (totalAdvancesTaken monthlyReport);
    "Salary Already Paid: " ++ formatCurrency (totalSalaryPaid monthlyReport);
    "";
    "FINAL CALCULATION:";
    "Total Wages Earned: " ++ formatCurrency (totalWagesEarned monthlyReport);
    "Less: Advances: " ++ formatCurrency (totalAdvancesTaken monthlyReport);
    "Less: Salary Paid: " ++ formatCurrency (totalSalaryPaid monthlyReport);
    "Final Amount: " ++ formatBalance (finalAmount monthlyReport);
    "";
    "ATTENDANCE DETAILS:";
    JSString.join JSString.nl (map attendance_line (attendanceDetails monthlyReport));
    "";
    "ADVANCE DETAILS:";
    JSString.join JSString.nl (map advance_line (advanceDetails monthlyReport));
    "";
    "SALARY PAYMENT DETAILS:";
    JSString.join JSString.nl (map payment_line (salaryPaymentDetails monthlyReport));
    "";
    "Generated on: " ++ today;
    "    "
  ].

(** [selectedEmployeeData] and [monthlyReport] of the component: [null]
    while no employee is selected (the empty string is falsy). *)
Definition selectedEmployeeData (L : Ledgers) (selectedEmployee : string)
    : option Employee :=
  if String.eqb selectedEmployee "" then None
  else find (fun e => String.eqb (id e) selectedEmployee) (employees L).

Definition monthlyReport (tza : Z) (L : Ledgers)
    (selectedEmployee selectedMonth : string) : option MonthlyReport :=
  if String.eqb selectedEmployee "" then None
  else generateMonthlyReport tza L selectedEmployee selectedMonth.

(** [downloadReport]: nothing without a report or an employee, else the
    name of the file and its text. *)
Definition downloadReport (tza : Z) (L : Ledgers)
    (selectedEmployee selectedMonth : string) : option (string * string) :=
  match monthlyReport tza L selectedEmployee selectedMonth,
        selectedEmployeeData L selectedEmployee with
  | Some report, Some employee =>
      Some (name employee ++ "_" ++ selectedMonth ++ "_payslip.txt",
            reportContent selectedMonth employee report)
  | _, _ => None
  end.

End Display.

(** [filteredEmployees], for the search term of the component. *)
Definition filteredEmployees (employees : list Employee) (searchTerm : string)
    : list Employee :=
  filter (fun employee =>
            JSString.includes (JSString.toLowerCase (name employee))
                              (JSString.toLowerCase searchTerm)
            || JSString.includes (JSString.toLowerCase (designation employee))
                                 (JSString.toLowerCase searchTerm))
         employees.

(** ** What the component puts on the screen

    The conditions and the texts of the JSX the component returns, block by
    block: a row of a table is the pair of its label and its amount, a run
    of text nodes the list of its pieces. *)

Section Screen.

Context {F : Formatter}.

Local Open Scope string_scope.
Local Open Scope Z_scope.

(** The bullet U+2022 of the employee cards, in UTF-8. *)
Definition bullet : string :=
  String (ascii_of_nat 226) (String (ascii_of_nat 128)
    (String (ascii_of_nat 162) EmptyString)).

(** The summary under the name of an employee card:
    [{report && (<div>{n} days worked (bullet) {formatBalance(finalAmount)}
    {additionalEarnings > 0 && ...} {totalSalaryPaid > 0 && ...}</div>)}]. *)
Definition cardSummary (report : option MonthlyReport) : list string :=
  match report with
  | None => []
  | Some report =>
      [JSString.of_nat (totalDaysWorked report) ++ " days worked " ++ bullet
       ++ " " ++ formatBalance (finalAmount report)]
      ++ (if 0 <? additionalEarnings report
          then ["(+" ++ formatCurrency (additionalEarnings report) ++ " extra)"]
          else [])
      ++ (if 0 <? totalSalaryPaid report
          then ["(Paid: " ++ formatCurrency (totalSalaryPaid report) ++ ")"]
          else [])
  end.

(** The employee grid, [filteredEmployees.map(employee => ...)]: for each
    employee of the search its card, that is the employee, [isSelected] and
    the [report] the card computes. *)
Definition employeeGrid (tza : Z) (L : Ledgers)
    (searchTerm selectedEmployee selectedMonth : string)
    : list (Employee * bool * option MonthlyReport) :=
  map (fun employee =>
         (employee,
          String.eqb selectedEmployee (id employee),
          generateMonthlyReport tza L (id employee) selectedMonth))
      (filteredEmployees (employees L) searchTerm).



(** One of the three category rows of the payment calculation:
    [records.length > 0 && (label (n unit), +amount)]. *)
Definition category_row (label unit : string)
    (records : list AttendanceRecord) : list (string * string) :=
  if Nat.ltb 0 (List.length records)
  then [(label ++ " (" ++ JSString.of_nat (List.length records) ++ unit ++ ")",
         "+" ++ formatCurrency (category_amount records))]
  else [].

(** The rows of the block "Payment Calculation" of the report panel. *)
Definition paymentCalculation (selectedEmployeeData : Employee)
    (monthlyReport : MonthlyReport) : list (string * string) :=
  [("Base Wages (" ++ JSString.of_nat (totalDaysWorked monthlyReport)
      ++ " days " ++ JSString.times_sign ++ " "
      ++ formatCurrency (dailyWage selectedEmployeeData) ++ ")",
    "+" ++ formatCurrency (baseWages monthlyReport))]
  ++ (if 0 <? additionalEarnings monthlyReport
      then category_row "Overtime" " days" (otRecords monthlyReport)
           ++ category_row "Half Days" " days" (halfDayRecords monthlyReport)
           ++ category_row "Custom Payments" ""
                (customPaymentRecords monthlyReport)
           ++ [("Additional Earnings Total",
                "+" ++ formatCurrency (additionalEarnings monthlyReport))]
      else [])
  ++ [("Total Earnings", "+" ++ formatCurrency (totalWagesEarned monthlyReport));
      ("Advances Taken", "-" ++ formatCurrency (totalAdvancesTaken monthlyReport));
      ("Salary Paid", "-" ++ formatCurrency (totalSalaryPaid monthlyReport));
      ("Final Amount", formatBalance (finalAmount monthlyReport))].

End Screen.

(** The heading of the balance card:
    [finalAmount === 0 ? 'Fully Paid' : finalAmount > 0 ? 'Balance Due'
    : 'Overpaid']. *)
Definition balanceLabel (finalAmount : Z) : string :=
  if finalAmount =? 0 then "Fully Paid"%string
  else if 0 <? finalAmount then "Balance Due"%string
  else "Overpaid"%string.

(** ** Sample data for the examples *)

(** A formatter for the examples: the rupee sign is written [Rs], the
    amount in decimal digits, a date as it is stored. *)
Definition plain_currency (n : Z) : string :=
  ("Rs" ++ (if (n <? 0)%Z then "-" else "")
   ++ NilZero.string_of_uint (N.to_uint (Z.to_N (Z.abs n))))%string.

#[export] Instance plain_formatter : Formatter := {|
  formatCurrency := plain_currency;
  toLocaleDateString := fun s => s;
  toLocaleMonthYear := fun s => s;
  today := "2024-02-05"%string
|}.

Definition asha : Employee := {|
  id := "e1"; name := "Asha Devi"; designation := "Mason";
  dailyWage := 500; contactNumber := "9000000001"
|}.

Definition ravi : Employee := {|
  id := "e2"; name := "Ravi Kumar"; designation := "Site Helper";
  dailyWage := 400; contactNumber := "9000000002"
|}.

(** An attendance record of [asha]. *)
Definition att (date : string) (p : bool) (type : option string)
    (amount : option Z) : AttendanceRecord := {|
  att_employeeId := "e1"; att_date := date; present := p;
  customType := type; customAmount := amount
|}.

Definition january : Ledgers := {|
  employees := [asha; ravi];
  attendance := [
    att "2023-12-31" true None None;
    att "2024-01-01" true None None;
    att "2024-01-02" true (Some "ot"%string) (Some 300);
    att "2024-01-03" false (Some "half-day"%string) (Some 250);
    att "2024-01-04" false (Some "custom"%string) (Some 100);
    att "2024-01-05" true None (Some 50);
    att "2024-01-06" false (Some "bonus"%string) (Some 70);
    att "2024-01-30" true None None;
    att "2024-02-01" true None None
  ];
  advances := [
    {| adv_employeeId := "e1"; adv_amount := 200; adv_date := "2024-01-10";
       adv_description := "festival" |};
    {| adv_employeeId := "e2"; adv_amount := 900; adv_date := "2024-01-10";
       adv_description := "rent" |}
  ];
  salaryPayments := [
    {| pay_employeeId := "e1"; pay_amount := 1000; paymentDate := "2024-01-20";
       pay_description := "part payment" |}
  ]
|}.

(** The ledgers of January with the records of [asha] only. *)
Definition asha_only : Ledgers := {|
  employees := employees january;
  attendance := attendance january;
  advances := filter (fun a => String.eqb (adv_employeeId a) "e1")
                     (advances january);
  salaryPayments := salaryPayments january
|}.

(** Records of [asha] on the first and the last day of January 2024 and on
    the days next to them, in each of the three ledgers. *)
Definition boundary_dates : list string :=
  ["2023-12-31"; "2024-01-01"; "2024-01-31"; "2024-02-01"]%string.

Definition boundary_days : Ledgers := {|
  employees := [asha];
  attendance := map (fun d => att d true None None) boundary_dates;
  advances :=
    map (fun d => {| adv_employeeId := "e1"; adv_amount := 100; adv_date := d;
                     adv_description := "advance" |}) boundary_dates;
  salaryPayments :=
    map (fun d => {| pay_employeeId := "e1"; pay_amount := 100; paymentDate := d;
                     pay_description := "salary" |}) boundary_dates
|}.

(** ** Vocabulary of the statements *)

(** The sum of a list of amounts. *)
Definition sumZ (xs : list Z) : Z := fold_right Z.add 0 xs.

(** The custom amount of a record, zero when it has none. *)
Definition custom_or_zero (a : AttendanceRecord) : Z :=
  match customAmount a with
  | Some v => v
  | None => 0
  end.

(** Two lists of records share no record. *)
Definition disjoint {A : Type} (xs ys : list A) : Prop :=
  forall a, In a xs -> ~ In a ys.

(** [t] occurs in [s] up to the case of the letters: some stretch of [s]
    has the lower-case form of [t]. *)
Definition contains_ignoring_case (s t : string) : Prop :=
  exists pre mid suf : string,
    s = (pre ++ mid ++ suf)%string
    /\ JSString.toLowerCase mid = JSString.toLowerCase t.

(** The day number of the first day of the month after month [m] of year
    [y]; the last day of the month is the day before it. *)
Definition next_month_start (y m : Z) : Z :=
  if m =? 12 then JSDate.days_from_civil (y + 1) 1 1
  else JSDate.days_from_civil y (m + 1) 1.

(** The months of one cycle of 400 years of the Gregorian calendar. *)
Definition cycle_months : list (Z * Z) :=
  list_prod (map Z.of_nat (seq 0 400)) (map Z.of_nat (seq 1 12)).

(** The calendar functions agree at the start of a month: the first day
    reads back as the first of that month, the day before it lies in the
    month before, and the next month starts later. *)
Definition month_start_ok (ym : Z * Z) : bool :=
  let '(y, m) := ym in
  let D := JSDate.days_from_civil y m 1 in
  let '(y1, m1, d1) := JSDate.civil_from_days D in
  let '(y0, m0, _) := JSDate.civil_from_days (D - 1) in
  (y1 =? y) && (m1 =? m) && (d1 =? 1)
  && (y0 =? (if m =? 1 then y - 1 else y))
  && (m0 =? (if m =? 1 then 12 else m - 1))
  && (D <? next_month_start y m).

(** A report without records: the lists are empty and the amounts zero. *)
Definition empty_report (r : MonthlyReport) : Prop :=
  attendanceDetails r = [] /\ advanceDetails r = []
  /\ salaryPaymentDetails r = []
  /\ otRecords r = [] /\ halfDayRecords r = [] /\ customPaymentRecords r = []
  /\ totalDaysWorked r = 0%nat /\ baseWages r = 0 /\ additionalEarnings r = 0
  /\ totalWagesEarned r = 0 /\ totalAdvancesTaken r = 0
  /\ totalSalaryPaid r = 0 /\ finalAmount r = 0.

(** The lines a list of entries takes in the payslip: [join] of no entry is
    the empty string, which is one empty line. *)
Definition block (entries : list string) : list string :=
  match entries with
  | [] => [EmptyString]
  | _ :: _ => entries
  end.

(** The ledgers hold the same records of the employee, in the same order. *)
Definition same_own_records (eid : string) (L L' : Ledgers) : Prop :=
  filter (fun a => String.eqb (att_employeeId a) eid) (attendance L')
  = filter (fun a => String.eqb (att_employeeId a) eid) (attendance L)
  /\ filter (fun a => String.eqb (adv_employeeId a) eid) (advances L')
     = filter (fun a => String.eqb (adv_employeeId a) eid) (advances L)
  /\ filter (fun p => String.eqb (pay_employeeId p) eid) (salaryPayments L')
     = filter (fun p => String.eqb (pay_employeeId p) eid) (salaryPayments L).

(** The employee matches the search term. *)
Definition matches (term : string) (e : Employee) : Prop :=
  contains_ignoring_case (name e) term
  \/ contains_ignoring_case (designation e) term.

(** * Properties *)

(** ** Sums and the loop of the engine *)

Lemma fold_left_add_sumZ {A : Type} (f : A -> Z) (xs : list A) (acc : Z) :
  fold_left (fun sum x => sum + f x) xs acc = acc + sumZ (map f xs).
Proof.
  revert acc; induction xs as [|x xs IH]; intros acc; simpl.
  - lia.
  - rewrite IH. lia.
Qed.

Lemma reduce_sum_sumZ {A : Type} (f : A -> Z) (xs : list A) :
  reduce_sum f xs = sumZ (map f xs).
Proof. unfold reduce_sum. now rewrite fold_left_add_sumZ. Qed.

Lemma sumZ_cons (x : Z) (xs : list Z) : sumZ (x :: xs) = x + sumZ xs.
Proof. reflexivity. Qed.

Lemma sumZ_app (xs ys : list Z) : sumZ (xs ++ ys) = sumZ xs + sumZ ys.
Proof. induction xs as [|x xs IH]; simpl; lia. Qed.

Lemma amount_or_zero_custom (a : AttendanceRecord) :
  amount_or_zero (customAmount a) = custom_or_zero a.
Proof.
  unfold amount_or_zero, custom_or_zero, truthy_number.
  destruct (customAmount a) as [v|]; [|reflexivity].
  destruct (Z.eqb_spec v 0); simpl; congruence.
Qed.

Lemma accumulate_step (e : Employee) (base additional : Z) (a : AttendanceRecord) :
  accumulate e (base, additional) a
  = (base + (if present a then dailyWage e else 0), additional + custom_or_zero a).
Proof.
  unfold accumulate, custom_or_zero, truthy_number.
  destruct (present a), (customAmount a) as [v|]; simpl;
    try destruct (Z.eqb_spec v 0); simpl; f_equal; lia.
Qed.

Lemma accumulate_fold (e : Employee) (xs : list AttendanceRecord) (base additional : Z) :
  fold_left (accumulate e) xs (base, additional)
  = (base + dailyWage e * Z.of_nat (List.length (filter present xs)),
     additional + sumZ (map custom_or_zero xs)).
Proof.
  revert base additional; induction xs as [|a xs IH]; intros base additional.
  - simpl. f_equal; lia.
  - cbn [fold_left]. rewrite accumulate_step, IH. cbn [filter map].
    change (sumZ (custom_or_zero a :: map custom_or_zero xs))
      with (custom_or_zero a + sumZ (map custom_or_zero xs)).
    destruct (present a); cbn [List.length]; f_equal; lia.
Qed.

(** The report, field by field, once the employee is found. *)
Lemma generateMonthlyReport_found tza L eid m e :
  find (fun e => String.eqb (id e) eid) (employees L) = Some e ->
  generateMonthlyReport tza L eid m = Some {|
    employeeId := eid;
    month := m;
    totalDaysWorked := List.length (filter present (monthAttendance tza L eid m));
    baseWages :=
      dailyWage e * Z.of_nat (List.length (filter present (monthAttendance tza L eid m)));
    additionalEarnings := sumZ (map custom_or_zero (monthAttendance tza L eid m));
    totalWagesEarned :=
      dailyWage e * Z.of_nat (List.length (filter present (monthAttendance tza L eid m)))
      + sumZ (map custom_or_zero (monthAttendance tza L eid m));
    totalAdvancesTaken := sumZ (map adv_amount (monthAdvances tza L eid m));
    totalSalaryPaid := sumZ (map pay_amount (monthSalaryPayments tza L eid m));
    finalAmount :=
      dailyWage e * Z.of_nat (List.length (filter present (monthAttendance tza L eid m)))
      + sumZ (map custom_or_zero (monthAttendance tza L eid m))
      - sumZ (map adv_amount (monthAdvances tza L eid m))
      - sumZ (map pay_amount (monthSalaryPayments tza L eid m));
    attendanceDetails := monthAttendance tza L eid m;
    advanceDetails := monthAdvances tza L eid m;
    salaryPaymentDetails := monthSalaryPayments tza L eid m;
    otRecords := filter (customType_is "ot") (monthAttendance tza L eid m);
    halfDayRecords := filter (customType_is "half-day") (monthAttendance tza L eid m);
    customPaymentRecords := filter (customType_is "custom") (monthAttendance tza L eid m)
  |}.
Proof.
  intros Hfind. unfold generateMonthlyReport. rewrite Hfind.
  rewrite accumulate_fold, !reduce_sum_sumZ. cbn [Z.add]. reflexivity.
Qed.

Lemma generateMonthlyReport_some tza L eid m r :
  generateMonthlyReport tza L eid m = Some r ->
  exists e, find (fun e => String.eqb (id e) eid) (employees L) = Some e.
Proof.
  unfold generateMonthlyReport.
  destruct (find _ (employees L)) as [e|]; [eauto | discriminate].
Qed.

Ltac report_fields H :=
  let e := fresh "e" in
  let Hfind := fresh "Hfind" in
  destruct (generateMonthlyReport_some _ _ _ _ _ H) as [e Hfind];
  rewrite (generateMonthlyReport_found _ _ _ _ _ Hfind) in H;
  injection H as <-; cbn [employeeId month totalDaysWorked baseWages
    additionalEarnings totalWagesEarned totalAdvancesTaken totalSalaryPaid
    finalAmount attendanceDetails advanceDetails salaryPaymentDetails
    otRecords halfDayRecords customPaymentRecords].

(** ** The arithmetic of the report *)

(** C1: a report that [generateMonthlyReport] returns has
    totalWagesEarned = baseWages + additionalEarnings and
    finalAmount = totalWagesEarned - totalAdvancesTaken - totalSalaryPaid,
    where totalAdvancesTaken is the sum of the amounts of the filtered
    advances and totalSalaryPaid the sum of the amounts of the filtered
    salary payments. *)
Theorem report_arithmetic tza L eid m r :
  generateMonthlyReport tza L eid m = Some r ->
  totalWagesEarned r = baseWages r + additionalEarnings r
  /\ finalAmount r = totalWagesEarned r - totalAdvancesTaken r - totalSalaryPaid r
  /\ advanceDetails r = monthAdvances tza L eid m
  /\ salaryPaymentDetails r = monthSalaryPayments tza L eid m
  /\ totalAdvancesTaken r = sumZ (map adv_amount (advanceDetails r))
  /\ totalSalaryPaid r = sumZ (map pay_amount (salaryPaymentDetails r)).
Proof.
  intros H. report_fields H. repeat split; reflexivity.
Qed.

Lemma report_arithmetic_witness :
  match generateMonthlyReport JSDate.tzIST january "e1" "2024-01" with
  | Some r =>
      totalWagesEarned r = baseWages r + additionalEarnings r
      /\ finalAmount r = totalWagesEarned r - totalAdvancesTaken r - totalSalaryPaid r
      /\ finalAmount r = 1570
  | None => False
  end.
Proof.
  destruct (generateMonthlyReport JSDate.tzIST january "e1" "2024-01")
    as [r|] eqn:E.
  - destruct (report_arithmetic _ _ _ _ _ E) as (H1 & H2 & _).
    split; [exact H1 | split; [exact H2 |]].
    vm_compute in E. injection E as <-. reflexivity.
  - vm_compute in E. discriminate E.
Defined.

(** ** The unknown employee *)

Lemma find_id_none eid (es : list Employee) :
  find (fun e => String.eqb (id e) eid) es = None
  <-> (forall e, In e es -> id e <> eid).
Proof.
  split.
  - intros H e He Heq.
    pose proof (find_none _ _ H e He) as Hn. cbn beta in Hn.
    rewrite Heq, String.eqb_refl in Hn. discriminate.
  - intros H. destruct (find _ es) as [e|] eqn:E; [|reflexivity].
    apply find_some in E. destruct E as [He Heq].
    apply String.eqb_eq in Heq. now elim (H e He).
Qed.

(** C3: [generateMonthlyReport] is a total function into an optional report;
    it returns [null] exactly when no employee of the collection has the
    identifier, and a report (for that identifier and month) when one has. *)
Theorem unknown_employee_is_null tza L eid m :
  (generateMonthlyReport tza L eid m = None
   <-> (forall e, In e (employees L) -> id e <> eid))
  /\ ((exists e, In e (employees L) /\ id e = eid) ->
      exists r, generateMonthlyReport tza L eid m = Some r
                /\ employeeId r = eid /\ month r = m).
Proof.
  split.
  - rewrite <- find_id_none. unfold generateMonthlyReport.
    destruct (find _ (employees L)) as [e|].
    + destruct (fold_left _ _ _). split; discriminate.
    + tauto.
  - intros (e & He & Heq).
    destruct (find (fun e => String.eqb (id e) eid) (employees L)) as [e'|] eqn:E.
    + rewrite (generateMonthlyReport_found _ _ _ m _ E). eexists. split; [reflexivity|].
      split; reflexivity.
    + now elim (proj1 (find_id_none _ _) E e He).
Qed.

Lemma unknown_employee_is_null_witness :
  generateMonthlyReport JSDate.tzIST january "e9" "2024-01" = None
  /\ exists r, generateMonthlyReport JSDate.tzIST january "e2" "2024-01" = Some r
               /\ employeeId r = "e2"%string /\ month r = "2024-01"%string.
Proof.
  split.
  - apply (proj1 (unknown_employee_is_null JSDate.tzIST january "e9" "2024-01")).
    intros e [<-|[<-|[]]]; discriminate.
  - apply (proj2 (unknown_employee_is_null JSDate.tzIST january "e2" "2024-01")).
    exists ravi. split; [right; left|]; reflexivity.
Defined.

(** ** Days worked and additional earnings *)

Lemma filter_insert {A : Type} (p : A -> bool) (pre post : list A) (a : A) :
  p a = true ->
  filter p (pre ++ a :: post) = filter p pre ++ a :: filter p post.
Proof.
  intros Ha. rewrite filter_app. cbn [filter]. now rewrite Ha.
Qed.

(** C4: in every report additionalEarnings is the sum of the custom amounts
    of all the filtered attendance records, present or not, a record
    without custom amount counting for zero, and totalDaysWorked counts the
    filtered records that are present.  In particular one more record of the
    month with present = false and a custom amount [v] adds [v] to
    additionalEarnings and leaves totalDaysWorked as it was. *)
Theorem additional_earnings_ignore_presence tza eid m :
  (forall L r,
     generateMonthlyReport tza L eid m = Some r ->
     attendanceDetails r = monthAttendance tza L eid m
     /\ additionalEarnings r = sumZ (map custom_or_zero (attendanceDetails r))
     /\ totalDaysWorked r
        = count_occ bool_dec (map present (attendanceDetails r)) true)
  /\ (forall L L' r a v pre post,
        generateMonthlyReport tza L eid m = Some r ->
        employees L' = employees L ->
        attendance L = pre ++ post ->
        attendance L' = pre ++ a :: post ->
        in_month tza eid m (att_employeeId a) (att_date a) = true ->
        present a = false ->
        customAmount a = Some v ->
        exists r',
          generateMonthlyReport tza L' eid m = Some r'
          /\ additionalEarnings r' = additionalEarnings r + v
          /\ totalDaysWorked r' = totalDaysWorked r).
Proof.
  split.
  - intros L r H. report_fields H. repeat split.
    induction (monthAttendance tza L eid m) as [|a xs IH]; [reflexivity|].
    cbn [filter map count_occ].
    destruct (present a); destruct (bool_dec _ _); try congruence;
      cbn [List.length]; now rewrite IH.
  - intros L L' r a v pre post H Hemp Hatt Hatt' Hin Hp Hv.
    destruct (generateMonthlyReport_some _ _ _ _ _ H) as [e Hfind].
    rewrite (generateMonthlyReport_found _ _ _ _ _ Hfind) in H. injection H as <-.
    rewrite <- Hemp in Hfind.
    rewrite (generateMonthlyReport_found _ _ _ m _ Hfind).
    eexists. split; [reflexivity|].
    cbn [additionalEarnings totalDaysWorked].
    unfold monthAttendance. rewrite Hatt, Hatt'.
    rewrite (filter_insert _ pre post a Hin), !filter_app, !map_app, !sumZ_app.
    cbn [filter map sumZ fold_right]. rewrite Hp.
    unfold custom_or_zero at 2. rewrite Hv.
    fold (sumZ (map custom_or_zero
      (filter (fun a0 => in_month tza eid m (att_employeeId a0) (att_date a0)) post))).
    split; [lia | reflexivity].
Qed.

Lemma additional_earnings_ignore_presence_witness :
  exists r r',
    generateMonthlyReport JSDate.tzIST january "e1" "2024-01" = Some r
    /\ generateMonthlyReport JSDate.tzIST
         {| employees := employees january;
            attendance :=
              att "2024-01-15" false (Some "ot"%string) (Some 300)
              :: attendance january;
            advances := advances january;
            salaryPayments := salaryPayments january |}
         "e1" "2024-01" = Some r'
    /\ additionalEarnings r' = additionalEarnings r + 300
    /\ totalDaysWorked r' = totalDaysWorked r.
Proof.
  destruct (generateMonthlyReport JSDate.tzIST january "e1" "2024-01")
    as [r|] eqn:E; [|vm_compute in E; discriminate E].
  destruct (proj2 (additional_earnings_ignore_presence JSDate.tzIST "e1" "2024-01")
              january
              {| employees := employees january;
                 attendance :=
                   att "2024-01-15" false (Some "ot"%string) (Some 300)
                   :: attendance january;
                 advances := advances january;
                 salaryPayments := salaryPayments january |}
              r (att "2024-01-15" false (Some "ot"%string) (Some 300)) 300
              [] (attendance january) E)
    as (r' & H1 & H2 & H3); try reflexivity.
  exists r, r'. repeat split; assumption.
Defined.

(** ** The three category lists *)

Lemma customType_is_inj tag tag' (a : AttendanceRecord) :
  customType_is tag a = true -> customType_is tag' a = true -> tag = tag'.
Proof.
  unfold customType_is. destruct (customType a) as [s|]; [|discriminate].
  intros H H'. apply String.eqb_eq in H, H'. congruence.
Qed.

Lemma filter_customType_disjoint tag tag' (xs : list AttendanceRecord) :
  tag <> tag' ->
  disjoint (filter (customType_is tag) xs) (filter (customType_is tag') xs).
Proof.
  intros Hneq a Ha Ha'. apply filter_In in Ha, Ha'.
  apply Hneq. apply (customType_is_inj _ _ a); tauto.
Qed.

(** C6: in every report the overtime, half-day and custom-payment lists are
    pairwise disjoint, each of them is included in the attendance details of
    the month, and a record of the attendance details without category tag
    is in none of the three lists. *)
Theorem category_lists_partition tza L eid m r :
  generateMonthlyReport tza L eid m = Some r ->
  (disjoint (otRecords r) (halfDayRecords r)
   /\ disjoint (otRecords r) (customPaymentRecords r)
   /\ disjoint (halfDayRecords r) (customPaymentRecords r))
  /\ (incl (otRecords r) (attendanceDetails r)
      /\ incl (halfDayRecords r) (attendanceDetails r)
      /\ incl (customPaymentRecords r) (attendanceDetails r))
  /\ (forall a, In a (attendanceDetails r) -> customType a = None ->
        ~ In a (otRecords r) /\ ~ In a (halfDayRecords r)
        /\ ~ In a (customPaymentRecords r)).
Proof.
  intros H. report_fields H. split; [|split].
  - repeat split; apply filter_customType_disjoint; discriminate.
  - repeat split; apply incl_filter.
  - intros a _ Hnone.
    repeat split; intros Ha; apply filter_In in Ha; destruct Ha as [_ Ha];
      unfold customType_is in Ha; rewrite Hnone in Ha; discriminate.
Qed.

Lemma category_lists_partition_witness :
  match generateMonthlyReport JSDate.tzIST january "e1" "2024-01" with
  | Some r =>
      disjoint (otRecords r) (halfDayRecords r)
      /\ incl (customPaymentRecords r) (attendanceDetails r)
      /\ map att_date (otRecords r) = ["2024-01-02"%string]
      /\ map att_date (halfDayRecords r) = ["2024-01-03"%string]
      /\ map att_date (customPaymentRecords r) = ["2024-01-04"%string]
  | None => False
  end.
Proof.
  destruct (generateMonthlyReport JSDate.tzIST january "e1" "2024-01")
    as [r|] eqn:E.
  - destruct (category_lists_partition _ _ _ _ _ E)
      as ((H1 & _ & _) & (_ & _ & H2) & _).
    split; [exact H1 | split; [exact H2 |]].
    vm_compute in E. injection E as <-. repeat split.
  - vm_compute in E. discriminate E.
Defined.

(** ** Itemised amounts against additional earnings *)

Lemma category_amount_sumZ (xs : list AttendanceRecord) :
  category_amount xs = sumZ (map custom_or_zero xs).
Proof.
  unfold category_amount. rewrite reduce_sum_sumZ. f_equal.
  apply map_ext. intros a. apply amount_or_zero_custom.
Qed.

Lemma categories_below_total (xs : list AttendanceRecord) :
  (forall a, In a xs -> 0 <= custom_or_zero a) ->
  sumZ (map custom_or_zero (filter (customType_is "ot") xs))
  + sumZ (map custom_or_zero (filter (customType_is "half-day") xs))
  + sumZ (map custom_or_zero (filter (customType_is "custom") xs))
  <= sumZ (map custom_or_zero xs).
Proof.
  induction xs as [|a xs IH]; intros Hpos; [cbn; lia|].
  assert (Ha : 0 <= custom_or_zero a) by (apply Hpos; now left).
  assert (IH' := IH (fun b Hb => Hpos b (or_intror Hb))). clear IH.
  cbn [filter].
  destruct (customType_is "ot" a) eqn:E1;
    destruct (customType_is "half-day" a) eqn:E2;
    destruct (customType_is "custom" a) eqn:E3;
    try (pose proof (customType_is_inj _ _ _ E1 E2); discriminate);
    try (pose proof (customType_is_inj _ _ _ E1 E3); discriminate);
    try (pose proof (customType_is_inj _ _ _ E2 E3); discriminate);
    cbn [map]; rewrite ?sumZ_cons; lia.
Qed.



(** ** The display of a balance *)

(** C5: the balance display returns the formatted zero, without sign, on a
    balance of zero, and on every other balance, positive or negative, a
    "+" followed by the formatted absolute value of the balance. *)
Theorem formatBalance_plus_magnitude (F : Formatter) :
  formatBalance 0 = formatCurrency 0
  /\ (forall x, x <> 0 ->
        formatBalance x = ("+" ++ formatCurrency (Z.abs x))%string).
Proof.
  split; [reflexivity|].
  intros x Hx. unfold formatBalance.
  destruct (Z.eqb_spec x 0) as [|_]; [contradiction|].
  destruct (Z.ltb_spec 0 x) as [Hpos|_]; [|reflexivity].
  now rewrite Z.abs_eq by lia.
Qed.

Lemma formatBalance_plus_magnitude_witness :
  formatBalance 3300 = "+Rs3300"%string
  /\ formatBalance (-250) = "+Rs250"%string
  /\ formatBalance 0 = "Rs0"%string.
Proof.
  destruct (formatBalance_plus_magnitude plain_formatter) as [H0 Hx].
  split; [|split].
  - rewrite (Hx 3300) by lia. reflexivity.
  - rewrite (Hx (-250)) by lia. reflexivity.
  - rewrite H0. reflexivity.
Defined.

(** ** The engine on the store *)

Lemma nth_error_extend {A : Type} (h x : list A) (l : nat) (o : A) :
  nth_error h l = Some o -> nth_error (h ++ x) l = Some o.
Proof.
  intros H. rewrite nth_error_app1; [assumption|].
  apply nth_error_Some. congruence.
Qed.

Lemma nth_error_new {A : Type} (h : list A) (o : A) :
  nth_error (h ++ [o]) (List.length h) = Some o.
Proof. rewrite nth_error_app2, Nat.sub_diag by lia. reflexivity. Qed.

Lemma read_all_extend {A : Type} (as_ : Store.object -> option A) h x ls vs :
  Store.read_all as_ h ls = Some vs -> Store.read_all as_ (h ++ x) ls = Some vs.
Proof.
  revert vs; induction ls as [|l ls IH]; intros vs H; [assumption|].
  cbn [Store.read_all] in *.
  destruct (nth_error h l) as [o|] eqn:Hl; [|discriminate].
  rewrite (nth_error_extend _ x _ _ Hl).
  destruct (Store.read_all as_ h ls) as [ws|]; [|discriminate].
  now rewrite (IH ws eq_refl).
Qed.

Lemma read_array_extend {A : Type} (as_ : Store.object -> option A) h x array vs :
  Store.read_array as_ h array = Some vs ->
  Store.read_array as_ (h ++ x) array = Some vs.
Proof.
  unfold Store.read_array. intros H.
  destruct (nth_error h array) as [o|] eqn:Hl; [|discriminate].
  rewrite (nth_error_extend _ x _ _ Hl).
  destruct o; try discriminate. now apply read_all_extend.
Qed.

Lemma read_array_elements {A : Type} (as_ : Store.object -> option A) h array vs :
  Store.read_array as_ h array = Some vs ->
  nth_error h array = Some (Store.OArray (Store.elements_of h array))
  /\ Store.read_all as_ h (Store.elements_of h array) = Some vs.
Proof.
  unfold Store.read_array, Store.elements_of.
  destruct (nth_error h array) as [[| | | |ls|]|]; try discriminate. now split.
Qed.

Lemma read_array_new {A : Type} (as_ : Store.object -> option A) h ls vs :
  Store.read_all as_ h ls = Some vs ->
  Store.read_array as_ (h ++ [Store.OArray ls]) (List.length h) = Some vs.
Proof.
  intros H. unfold Store.read_array. rewrite nth_error_new.
  now apply read_all_extend.
Qed.

Lemma ledgers_of_fields h P L :
  Store.ledgers_of h P = Some L ->
  Store.read_array Store.as_employee h (Store.p_employees P) = Some (employees L)
  /\ Store.read_array Store.as_attendance h (Store.p_attendance P)
     = Some (attendance L)
  /\ Store.read_array Store.as_advance h (Store.p_advances P) = Some (advances L)
  /\ Store.read_array Store.as_payment h (Store.p_salaryPayments P)
     = Some (salaryPayments L).
Proof.
  unfold Store.ledgers_of.
  destruct (Store.read_array Store.as_employee h _) as [es|]; [|discriminate].
  destruct (Store.read_array Store.as_attendance h _) as [atts|]; [|discriminate].
  destruct (Store.read_array Store.as_advance h _) as [advs|]; [|discriminate].
  destruct (Store.read_array Store.as_payment h _) as [pays|]; [|discriminate].
  intros [= <-]. now repeat split.
Qed.

Lemma ledgers_of_extend h x P L :
  Store.ledgers_of h P = Some L -> Store.ledgers_of (h ++ x) P = Some L.
Proof.
  intros H. destruct (ledgers_of_fields _ _ _ H) as (He & Ha & Hd & Hp).
  unfold Store.ledgers_of.
  rewrite (read_array_extend _ _ x _ _ He), (read_array_extend _ _ x _ _ Ha),
    (read_array_extend _ _ x _ _ Hd), (read_array_extend _ _ x _ _ Hp).
  now destruct L.
Qed.

Lemma bind_run {A B : Type} (m : Store.M A) (k : A -> Store.M B) h a h' :
  m h = Some (a, h') -> Store.bind m k h = k a h'.
Proof. intros H. unfold Store.bind. now rewrite H. Qed.

Lemma load_run {A : Type} (as_ : Store.object -> option A) h l o a :
  nth_error h l = Some o -> as_ o = Some a -> Store.load as_ l h = Some (a, h).
Proof. intros Hl Ha. unfold Store.load. now rewrite Hl, Ha. Qed.

Lemma reading_run {A B : Type} (as_ : Store.object -> option A) (f : A -> B)
    h l o a :
  nth_error h l = Some o -> as_ o = Some a ->
  Store.reading as_ f l h = Some (f a, h).
Proof.
  intros Hl Ha. unfold Store.reading.
  now rewrite (bind_run _ _ _ _ _ (load_run _ _ _ _ _ Hl Ha)).
Qed.

Lemma read_all_cons {A : Type} (as_ : Store.object -> option A) h l ls vs :
  Store.read_all as_ h (l :: ls) = Some vs ->
  exists o v ws, nth_error h l = Some o /\ as_ o = Some v
                 /\ Store.read_all as_ h ls = Some ws /\ vs = v :: ws.
Proof.
  cbn [Store.read_all]. destruct (nth_error h l) as [o|]; [|discriminate].
  destruct (Store.read_all as_ h ls) as [ws|]; [|discriminate].
  destruct (as_ o) as [v|] eqn:Hv; [|discriminate].
  intros [= <-]. now exists o, v, ws.
Qed.

Lemma filter_loop_run {A : Type} (as_ : Store.object -> option A) (f : A -> bool)
    h ls vs :
  Store.read_all as_ h ls = Some vs ->
  exists kept,
    Store.filter_loop (Store.reading as_ f) ls h = Some (kept, h)
    /\ Store.read_all as_ h kept = Some (filter f vs)
    /\ incl kept ls.
Proof.
  revert vs; induction ls as [|l ls IH]; intros vs H.
  - injection H as <-. exists []. repeat split. apply incl_refl.
  - destruct (read_all_cons _ _ _ _ _ H) as (o & v & ws & Hl & Hv & Hws & ->).
    destruct (IH ws Hws) as (kept & Hrun & Hread & Hincl).
    cbn [Store.filter_loop filter].
    rewrite (bind_run _ _ _ _ _ (reading_run as_ f _ _ _ _ Hl Hv)).
    rewrite (bind_run _ _ _ _ _ Hrun). unfold Store.ret.
    destruct (f v).
    + exists (l :: kept). split; [reflexivity|]. split.
      * cbn [Store.read_all]. now rewrite Hl, Hread, Hv.
      * intros x [<-|Hx]; [now left | right; now apply Hincl].
    + exists kept. split; [reflexivity|]. split; [assumption|].
      intros x Hx. right. now apply Hincl.
Qed.

Lemma Array_filter_run {A : Type} (as_ : Store.object -> option A) (f : A -> bool)
    h array vs :
  Store.read_array as_ h array = Some vs ->
  exists kept,
    Store.Array_filter array (Store.reading as_ f) h
    = Some (List.length h, h ++ [Store.OArray kept])
    /\ Store.read_array as_ (h ++ [Store.OArray kept]) (List.length h)
       = Some (filter f vs)
    /\ incl kept (Store.elements_of h array).
Proof.
  intros H. destruct (read_array_elements _ _ _ _ H) as [Harr Hall].
  destruct (filter_loop_run as_ f _ _ _ Hall) as (kept & Hrun & Hread & Hincl).
  exists kept. split; [|split; [now apply read_array_new | assumption]].
  unfold Store.Array_filter.
  rewrite (bind_run _ _ _ _ _ (load_run Store.as_array _ _ _ _ Harr eq_refl)).
  now rewrite (bind_run _ _ _ _ _ Hrun).
Qed.

Lemma find_loop_run {A : Type} (as_ : Store.object -> option A) (f : A -> bool)
    h ls vs :
  Store.read_all as_ h ls = Some vs ->
  exists found,
    Store.find_loop (Store.reading as_ f) ls h = Some (found, h)
    /\ match found with
       | Some l => exists o a, nth_error h l = Some o /\ as_ o = Some a
                               /\ find f vs = Some a
       | None => find f vs = None
       end.
Proof.
  revert vs; induction ls as [|l ls IH]; intros vs H.
  - injection H as <-. now exists None.
  - destruct (read_all_cons _ _ _ _ _ H) as (o & v & ws & Hl & Hv & Hws & ->).
    cbn [Store.find_loop find].
    rewrite (bind_run _ _ _ _ _ (reading_run as_ f _ _ _ _ Hl Hv)).
    destruct (f v).
    + exists (Some l). split; [reflexivity|]. now exists o, v.
    + apply (IH ws Hws).
Qed.

Lemma Array_find_run {A : Type} (as_ : Store.object -> option A) (f : A -> bool)
    h array vs :
  Store.read_array as_ h array = Some vs ->
  exists found,
    Store.Array_find array (Store.reading as_ f) h = Some (found, h)
    /\ match found with
       | Some l => exists o a, nth_error h l = Some o /\ as_ o = Some a
                               /\ find f vs = Some a
       | None => find f vs = None
       end.
Proof.
  intros H. destruct (read_array_elements _ _ _ _ H) as [Harr Hall].
  destruct (find_loop_run as_ f _ _ _ Hall) as (found & Hrun & Hfound).
  exists found. split; [|assumption]. unfold Store.Array_find.
  now rewrite (bind_run _ _ _ _ _ (load_run Store.as_array _ _ _ _ Harr eq_refl)).
Qed.

Lemma reduce_loop_run {S A : Type} (as_ : Store.object -> option A)
    (step : S -> A -> S) (f : S -> Store.loc -> Store.M S) h ls vs acc :
  (forall acc l o a, nth_error h l = Some o -> as_ o = Some a ->
     f acc l h = Some (step acc a, h)) ->
  Store.read_all as_ h ls = Some vs ->
  Store.reduce_loop f ls acc h = Some (fold_left step vs acc, h).
Proof.
  intros Hf. revert vs acc; induction ls as [|l ls IH]; intros vs acc H.
  - injection H as <-. reflexivity.
  - destruct (read_all_cons _ _ _ _ _ H) as (o & v & ws & Hl & Hv & Hws & ->).
    cbn [Store.reduce_loop fold_left].
    rewrite (bind_run _ _ _ _ _ (Hf acc l o v Hl Hv)). now apply IH.
Qed.

Lemma Array_reduce_run {S A : Type} (as_ : Store.object -> option A)
    (step : S -> A -> S) (f : S -> Store.loc -> Store.M S) h array vs init :
  (forall acc l o a, nth_error h l = Some o -> as_ o = Some a ->
     f acc l h = Some (step acc a, h)) ->
  Store.read_array as_ h array = Some vs ->
  Store.Array_reduce array f init h = Some (fold_left step vs init, h).
Proof.
  intros Hf H. destruct (read_array_elements _ _ _ _ H) as [Harr Hall].
  unfold Store.Array_reduce.
  rewrite (bind_run _ _ _ _ _ (load_run Store.as_array _ _ _ _ Harr eq_refl)).
  now apply (reduce_loop_run as_).
Qed.

Lemma read_all_length {A : Type} (as_ : Store.object -> option A) h ls vs :
  Store.read_all as_ h ls = Some vs -> List.length ls = List.length vs.
Proof.
  revert vs; induction ls as [|l ls IH]; intros vs H.
  - now injection H as <-.
  - destruct (read_all_cons _ _ _ _ _ H) as (o & v & ws & _ & _ & Hws & ->).
    cbn [List.length]. now rewrite (IH ws Hws).
Qed.

Lemma Array_length_run {A : Type} (as_ : Store.object -> option A) h array vs :
  Store.read_array as_ h array = Some vs ->
  Store.Array_length array h = Some (List.length vs, h).
Proof.
  intros H. destruct (read_array_elements _ _ _ _ H) as [Harr Hall].
  unfold Store.Array_length.
  rewrite (bind_run _ _ _ _ _ (load_run Store.as_array _ _ _ _ Harr eq_refl)).
  unfold Store.ret. now rewrite (read_all_length _ _ _ _ Hall).
Qed.

Lemma Array_forEach_run {S A : Type} (as_ : Store.object -> option A)
    (step : S -> A -> S) (f : S -> Store.loc -> Store.M S) h array vs vars :
  (forall acc l o a, nth_error h l = Some o -> as_ o = Some a ->
     f acc l h = Some (step acc a, h)) ->
  Store.read_array as_ h array = Some vs ->
  Store.Array_forEach array f vars h = Some (fold_left step vs vars, h).
Proof. apply Array_reduce_run. Qed.

Lemma elements_of_new h kept x :
  Store.elements_of ((h ++ [Store.OArray kept]) ++ x) (List.length h) = kept.
Proof.
  unfold Store.elements_of.
  now rewrite (nth_error_extend _ x _ _ (nth_error_new h (Store.OArray kept))).
Qed.

Lemma elements_of_extend {A : Type} (as_ : Store.object -> option A)
    h x array vs :
  Store.read_array as_ h array = Some vs ->
  Store.elements_of (h ++ x) array = Store.elements_of h array.
Proof.
  intros H. destruct (read_array_elements _ _ _ _ H) as [Harr _].
  unfold Store.elements_of at 1. now rewrite (nth_error_extend _ x _ _ Harr).
Qed.

Ltac extended :=
  repeat first [ eassumption
               | apply read_array_extend
               | apply nth_error_extend ].

(** One invocation on a store that holds the ledgers [L]: it runs to its
    end, adds objects to the store and touches none, and what it returns
    reads as the report of [L]; the arrays of the report hold locations of
    the records of the ledgers. *)
Lemma generateMonthlyReport_on_store tza P h L eid m :
  Store.ledgers_of h P = Some L ->
  exists result fresh,
    Store.run_generateMonthlyReport tza P eid m h = Some (result, h ++ fresh)
    /\ Store.read_result (h ++ fresh) result
       = Some (generateMonthlyReport tza L eid m)
    /\ (forall l, result = Some l ->
          exists r,
            nth_error (h ++ fresh) l = Some (Store.OReport r)
            /\ (List.length h <= l)%nat
            /\ incl (Store.elements_of (h ++ fresh) (Store.ro_attendanceDetails r))
                    (Store.elements_of h (Store.p_attendance P))
            /\ incl (Store.elements_of (h ++ fresh) (Store.ro_advanceDetails r))
                    (Store.elements_of h (Store.p_advances P))
            /\ incl (Store.elements_of (h ++ fresh)
                       (Store.ro_salaryPaymentDetails r))
                    (Store.elements_of h (Store.p_salaryPayments P))).
Proof.
  intros HL. destruct (ledgers_of_fields _ _ _ HL) as (He & Ha & Hd & Hp).
  unfold Store.run_generateMonthlyReport.
  destruct (Array_find_run Store.as_employee (fun e => String.eqb (id e) eid)
              _ _ _ He) as (found & Hfind & Hfound).
  rewrite (bind_run _ _ _ _ _ Hfind).
  destruct found as [el|].
  2: { exists None, []. rewrite app_nil_r. split; [reflexivity|].
       split; [|discriminate].
       cbn. unfold generateMonthlyReport. now rewrite Hfound. }
  destruct Hfound as (o & e & Hel & Hoe & Hfe).
  destruct (Array_filter_run Store.as_attendance
              (fun a => in_month tza eid m (att_employeeId a) (att_date a))
              _ _ _ Ha) as (k1 & R1 & A1 & I1).
  rewrite (bind_run _ _ _ _ _ R1).
  set (h1 := h ++ [Store.OArray k1]) in *.
  destruct (Array_filter_run Store.as_advance
              (fun a => in_month tza eid m (adv_employeeId a) (adv_date a))
              h1 _ _ (read_array_extend _ _ _ _ _ Hd)) as (k2 & R2 & A2 & I2).
  rewrite (bind_run _ _ _ _ _ R2).
  set (h2 := h1 ++ [Store.OArray k2]) in *.
  destruct (Array_filter_run Store.as_payment
              (fun p => in_month tza eid m (pay_employeeId p) (paymentDate p))
              h2 _ _ ltac:(unfold h2, h1; extended)) as (k3 & R3 & A3 & I3).
  rewrite (bind_run _ _ _ _ _ R3).
  set (h3 := h2 ++ [Store.OArray k3]) in *.
  assert (A1' : Store.read_array Store.as_attendance h3 (List.length h)
                = Some (monthAttendance tza L eid m))
    by (unfold h3, h2; extended).
  destruct (Array_filter_run Store.as_attendance present h3 _ _ A1')
    as (k4 & R4 & A4 & _).
  rewrite (bind_run _ _ _ _ _ R4).
  set (h4 := h3 ++ [Store.OArray k4]) in *.
  rewrite (bind_run _ _ _ _ _ (Array_length_run _ _ _ _ A4)).
  assert (B1 : Store.read_array Store.as_attendance h4 (List.length h)
               = Some (monthAttendance tza L eid m))
    by (unfold h4; extended).
  assert (B2 : Store.read_array Store.as_advance h4 (List.length h1)
               = Some (monthAdvances tza L eid m))
    by (unfold h4, h3; extended).
  assert (B3 : Store.read_array Store.as_payment h4 (List.length h2)
               = Some (monthSalaryPayments tza L eid m))
    by (unfold h4; extended).
  assert (Hel4 : nth_error h4 el = Some o)
    by (unfold h4, h3, h2, h1; extended).
  match goal with
  | |- context [Store.Array_forEach ?array ?f ?vars] =>
      assert (W : Store.Array_forEach array f vars h4
                  = Some (fold_left (accumulate e)
                            (monthAttendance tza L eid m) vars, h4))
  end.
  { apply (Array_forEach_run Store.as_attendance (accumulate e)); [|exact B1].
    intros acc l o' a Hl Ho'.
    rewrite (bind_run _ _ _ _ _ (load_run _ _ _ _ _ Hl Ho')).
    now rewrite (bind_run _ _ _ _ _ (load_run _ _ _ _ _ Hel4 Hoe)). }
  rewrite (bind_run _ _ _ _ _ W). clear W.
  destruct (fold_left (accumulate e) (monthAttendance tza L eid m) (0, 0))
    as [base additional] eqn:Hwages.
  match goal with
  | |- context [Store.Array_reduce ?array ?f ?init] =>
      assert (W : Store.Array_reduce array f init h4
                  = Some (fold_left (fun sum a => sum + adv_amount a)
                            (monthAdvances tza L eid m) init, h4))
  end.
  { apply (Array_reduce_run Store.as_advance); [|exact B2].
    intros acc l o' a Hl Ho'.
    now rewrite (bind_run _ _ _ _ _ (load_run _ _ _ _ _ Hl Ho')). }
  rewrite (bind_run _ _ _ _ _ W). clear W.
  match goal with
  | |- context [Store.Array_reduce ?array ?f ?init] =>
      assert (W : Store.Array_reduce array f init h4
                  = Some (fold_left (fun sum p => sum + pay_amount p)
                            (monthSalaryPayments tza L eid m) init, h4))
  end.
  { apply (Array_reduce_run Store.as_payment); [|exact B3].
    intros acc l o' a Hl Ho'.
    now rewrite (bind_run _ _ _ _ _ (load_run _ _ _ _ _ Hl Ho')). }
  rewrite (bind_run _ _ _ _ _ W). clear W.
  destruct (Array_filter_run Store.as_attendance (customType_is "ot") h4 _ _ B1)
    as (k5 & R5 & A5 & _).
  rewrite (bind_run _ _ _ _ _ R5).
  set (h5 := h4 ++ [Store.OArray k5]) in *.
  destruct (Array_filter_run Store.as_attendance (customType_is "half-day")
              h5 (List.length h) _ (read_array_extend _ _ _ _ _ B1))
    as (k6 & R6 & A6 & _).
  rewrite (bind_run _ _ _ _ _ R6).
  set (h6 := h5 ++ [Store.OArray k6]) in *.
  destruct (Array_filter_run Store.as_attendance (customType_is "custom")
              h6 (List.length h) _
              (read_array_extend _ _ _ _ _ (read_array_extend _ _ _ _ _ B1)))
    as (k7 & R7 & A7 & _).
  rewrite (bind_run _ _ _ _ _ R7).
  set (h7 := h6 ++ [Store.OArray k7]) in *.
  unfold Store.alloc, Store.bind, Store.ret.
  match goal with
  | |- context [h7 ++ [?report]] => set (h8 := h7 ++ [report])
  end.
  exists (Some (List.length h7)).
  exists ([Store.OArray k1] ++ [Store.OArray k2] ++ [Store.OArray k3]
          ++ [Store.OArray k4] ++ [Store.OArray k5] ++ [Store.OArray k6]
          ++ [Store.OArray k7] ++ skipn (List.length h7) h8).
  assert (Hh8 : h ++ [Store.OArray k1] ++ [Store.OArray k2] ++ [Store.OArray k3]
                ++ [Store.OArray k4] ++ [Store.OArray k5] ++ [Store.OArray k6]
                ++ [Store.OArray k7] ++ skipn (List.length h7) h8 = h8).
  { unfold h8 at 1. rewrite skipn_app, skipn_all, Nat.sub_diag. cbn [skipn app].
    unfold h8, h7, h6, h5, h4, h3, h2, h1. now rewrite <- !app_assoc. }
  rewrite Hh8.
  split; [reflexivity|].
  split.
  - cbn [Store.read_result]. unfold Store.read_report, h8.
    rewrite nth_error_new. fold h8.
    cbn [Store.ro_attendanceDetails Store.ro_advanceDetails
         Store.ro_salaryPaymentDetails Store.ro_otRecords
         Store.ro_halfDayRecords Store.ro_customPaymentRecords].
    replace (Store.read_array Store.as_attendance h8 (List.length h))
      with (Some (monthAttendance tza L eid m))
      by (symmetry; unfold h8, h7, h6, h5; extended).
    replace (Store.read_array Store.as_advance h8 (List.length h1))
      with (Some (monthAdvances tza L eid m))
      by (symmetry; unfold h8, h7, h6, h5; extended).
    replace (Store.read_array Store.as_payment h8 (List.length h2))
      with (Some (monthSalaryPayments tza L eid m))
      by (symmetry; unfold h8, h7, h6, h5; extended).
    replace (Store.read_array Store.as_attendance h8 (List.length h4))
      with (Some (filter (customType_is "ot") (monthAttendance tza L eid m)))
      by (symmetry; unfold h8, h7, h6; extended).
    replace (Store.read_array Store.as_attendance h8 (List.length h5))
      with (Some (filter (customType_is "half-day") (monthAttendance tza L eid m)))
      by (symmetry; unfold h8, h7; extended).
    replace (Store.read_array Store.as_attendance h8 (List.length h6))
      with (Some (filter (customType_is "custom") (monthAttendance tza L eid m)))
      by (symmetry; unfold h8; extended).
    cbn [option_map]. unfold generateMonthlyReport. rewrite Hfe, Hwages.
    reflexivity.
  - intros l [= <-]. eexists. split; [unfold h8; apply nth_error_new|].
    split.
    { unfold h7, h6, h5, h4, h3, h2, h1. rewrite !length_app. lia. }
    cbn [Store.ro_attendanceDetails Store.ro_advanceDetails
         Store.ro_salaryPaymentDetails].
    rewrite <- Hh8.
    split; [|split].
    + rewrite app_assoc, elements_of_new. exact I1.
    + replace (h ++ [Store.OArray k1] ++ [Store.OArray k2] ++ [Store.OArray k3]
               ++ [Store.OArray k4] ++ [Store.OArray k5] ++ [Store.OArray k6]
               ++ [Store.OArray k7] ++ skipn (List.length h7) h8)
        with ((h1 ++ [Store.OArray k2]) ++ [Store.OArray k3]
               ++ [Store.OArray k4] ++ [Store.OArray k5] ++ [Store.OArray k6]
               ++ [Store.OArray k7] ++ skipn (List.length h7) h8)
        by (unfold h1; now rewrite <- !app_assoc).
      rewrite elements_of_new. unfold h1 in I2.
      now rewrite (elements_of_extend _ _ _ _ _ Hd) in I2.
    + replace (h ++ [Store.OArray k1] ++ [Store.OArray k2] ++ [Store.OArray k3]
               ++ [Store.OArray k4] ++ [Store.OArray k5] ++ [Store.OArray k6]
               ++ [Store.OArray k7] ++ skipn (List.length h7) h8)
        with ((h2 ++ [Store.OArray k3])
               ++ [Store.OArray k4] ++ [Store.OArray k5] ++ [Store.OArray k6]
               ++ [Store.OArray k7] ++ skipn (List.length h7) h8)
        by (unfold h2, h1; now rewrite <- !app_assoc).
      rewrite elements_of_new.
      unfold h2, h1 in I3. rewrite <- app_assoc in I3.
      now rewrite (elements_of_extend _ _ _ _ _ Hp) in I3.
Qed.

Lemma read_report_extend h x l r :
  Store.read_report h l = Some r -> Store.read_report (h ++ x) l = Some r.
Proof.
  unfold Store.read_report. intros H.
  destruct (nth_error h l) as [o|] eqn:Hl; [|discriminate].
  rewrite (nth_error_extend _ x _ _ Hl).
  destruct o as [| | | | |ro]; try discriminate.
  destruct (Store.read_array Store.as_attendance h (Store.ro_attendanceDetails ro))
    as [v1|] eqn:E1; [|discriminate].
  destruct (Store.read_array Store.as_advance h (Store.ro_advanceDetails ro))
    as [v2|] eqn:E2; [|discriminate].
  destruct (Store.read_array Store.as_payment h (Store.ro_salaryPaymentDetails ro))
    as [v3|] eqn:E3; [|discriminate].
  destruct (Store.read_array Store.as_attendance h (Store.ro_otRecords ro))
    as [v4|] eqn:E4; [|discriminate].
  destruct (Store.read_array Store.as_attendance h (Store.ro_halfDayRecords ro))
    as [v5|] eqn:E5; [|discriminate].
  destruct (Store.read_array Store.as_attendance h
              (Store.ro_customPaymentRecords ro)) as [v6|] eqn:E6; [|discriminate].
  now rewrite (read_array_extend _ _ x _ _ E1), (read_array_extend _ _ x _ _ E2),
    (read_array_extend _ _ x _ _ E3), (read_array_extend _ _ x _ _ E4),
    (read_array_extend _ _ x _ _ E5), (read_array_extend _ _ x _ _ E6).
Qed.

Lemma read_result_extend h x result r :
  Store.read_result h result = Some r ->
  Store.read_result (h ++ x) result = Some r.
Proof.
  destruct result as [l|]; [|trivial]. cbn [Store.read_result].
  destruct (Store.read_report h l) as [v|] eqn:E; [|discriminate].
  now rewrite (read_report_extend _ x _ _ E).
Qed.

(** The search on a store that holds the ledgers [L]. *)
Lemma filteredEmployees_on_store P h L term :
  Store.ledgers_of h P = Some L ->
  exists kept,
    Store.run_filteredEmployees P term h
    = Some (List.length h, h ++ [Store.OArray kept])
    /\ Store.read_array Store.as_employee (h ++ [Store.OArray kept])
         (List.length h)
       = Some (filteredEmployees (employees L) term)
    /\ incl kept (Store.elements_of h (Store.p_employees P)).
Proof.
  intros HL. destruct (ledgers_of_fields _ _ _ HL) as (He & _).
  apply (Array_filter_run Store.as_employee _ _ _ _ He).
Qed.

Lemma read_all_segment {A : Type} (as_ : Store.object -> option A)
    (C : A -> Store.object) (pre : Store.store) (vs : list A) (post : Store.store) :
  (forall v, as_ (C v) = Some v) ->
  Store.read_all as_ (pre ++ map C vs ++ post) (seq (List.length pre) (List.length vs))
  = Some vs.
Proof.
  intros HC. revert pre; induction vs as [|v vs IH]; intros pre; [reflexivity|].
  cbn [List.length seq map Store.read_all app].
  rewrite nth_error_app2, Nat.sub_diag by lia. cbn [nth_error].
  specialize (IH (pre ++ [C v])).
  rewrite <- app_assoc, length_app in IH. cbn [app List.length] in IH.
  rewrite Nat.add_1_r in IH. rewrite IH, HC. reflexivity.
Qed.

(** Every set of ledgers is held by a store. *)
Lemma store_of_holds (L : Ledgers) :
  Store.ledgers_of (fst (Store.store_of L)) (snd (Store.store_of L)) = Some L.
Proof.
  destruct L as [es atts advs pays]. unfold Store.store_of.
  cbn [fst snd employees attendance advances salaryPayments].
  set (oe := map Store.OEmployee es). set (oa := map Store.OAttendance atts).
  set (od := map Store.OAdvance advs). set (op := map Store.OPayment pays).
  set (arrays := [Store.OArray _; Store.OArray _; Store.OArray _; Store.OArray _]).
  set (h := oe ++ oa ++ od ++ op ++ arrays).
  assert (Hlen : List.length (oe ++ oa ++ od ++ op)
                 = (List.length oe + List.length oa + List.length od
                    + List.length op)%nat)
    by (rewrite !length_app; lia).
  assert (Hh : h = (oe ++ oa ++ od ++ op) ++ arrays)
    by (unfold h; now rewrite <- !app_assoc).
  assert (Harr : forall k o, nth_error arrays k = Some o ->
            nth_error h (List.length oe + List.length oa + List.length od
                         + List.length op + k) = Some o).
  { intros k o Hk. rewrite Hh, nth_error_app2 by lia.
    rewrite Hlen. now replace (_ + k - _)%nat with k by lia. }
  unfold Store.ledgers_of, Store.read_array.
  cbn [Store.p_employees Store.p_attendance Store.p_advances Store.p_salaryPayments].
  rewrite <- (Nat.add_0_r (_ + List.length op)) at 1.
  rewrite (Harr 0%nat _ eq_refl).
  replace (S (List.length oe + List.length oa + List.length od + List.length op))
    with (List.length oe + List.length oa + List.length od + List.length op + 1)%nat
    by lia.
  rewrite (Harr 1%nat _ eq_refl).
  replace (S (List.length oe + List.length oa + List.length od + List.length op + 1))
    with (List.length oe + List.length oa + List.length od + List.length op + 2)%nat
    by lia.
  rewrite (Harr 2%nat _ eq_refl).
  replace (S (List.length oe + List.length oa + List.length od + List.length op + 2))
    with (List.length oe + List.length oa + List.length od + List.length op + 3)%nat
    by lia.
  rewrite (Harr 3%nat _ eq_refl).
  pose proof (read_all_segment Store.as_employee Store.OEmployee [] es
                (oa ++ od ++ op ++ arrays) (fun v => eq_refl)) as R1.
  pose proof (read_all_segment Store.as_attendance Store.OAttendance oe atts
                (od ++ op ++ arrays) (fun v => eq_refl)) as R2.
  pose proof (read_all_segment Store.as_advance Store.OAdvance (oe ++ oa) advs
                (op ++ arrays) (fun v => eq_refl)) as R3.
  pose proof (read_all_segment Store.as_payment Store.OPayment (oe ++ oa ++ od) pays
                arrays (fun v => eq_refl)) as R4.
  cbn [app List.length] in R1.
  rewrite <- !app_assoc, !length_app in R3.
  rewrite <- !app_assoc, !length_app in R4.
  rewrite <- (length_map Store.OEmployee es) in R1.
  rewrite <- (length_map Store.OAttendance atts) in R2.
  rewrite <- (length_map Store.OAdvance advs) in R3.
  rewrite <- (length_map Store.OPayment pays) in R4.
  fold oe oa od op in R1, R2, R3, R4. fold h in R1, R2, R3, R4.
  rewrite ?Nat.add_assoc in R4.
  now rewrite R1, R2, R3, R4.
Qed.

(** C9: on every store that holds the four collections, an invocation of
    [generateMonthlyReport] runs to its end, writes to no object that was in
    the store (the objects it adds are its own arrays and its report), and
    leaves the four collections as they were; the arrays of details it
    returns hold the very records of the ledgers.  A second invocation with
    the same identifier and month, and an invocation of the search, do the
    same, and the two reports are equal, though they are two objects. *)
Theorem invocations_leave_the_store tza P h L eid m term :
  Store.ledgers_of h P = Some L ->
  exists result fresh result' fresh' found fresh'',
    Store.run_generateMonthlyReport tza P eid m h = Some (result, h ++ fresh)
    /\ Store.run_generateMonthlyReport tza P eid m (h ++ fresh)
       = Some (result', (h ++ fresh) ++ fresh')
    /\ Store.run_filteredEmployees P term ((h ++ fresh) ++ fresh')
       = Some (found, ((h ++ fresh) ++ fresh') ++ fresh'')
    /\ (forall l o, nth_error h l = Some o ->
          nth_error (((h ++ fresh) ++ fresh') ++ fresh'') l = Some o)
    /\ Store.ledgers_of (((h ++ fresh) ++ fresh') ++ fresh'') P = Some L
    /\ Store.read_result (((h ++ fresh) ++ fresh') ++ fresh'') result
       = Some (generateMonthlyReport tza L eid m)
    /\ Store.read_result (((h ++ fresh) ++ fresh') ++ fresh'') result'
       = Some (generateMonthlyReport tza L eid m)
    /\ Store.read_array Store.as_employee
         (((h ++ fresh) ++ fresh') ++ fresh'') found
       = Some (filteredEmployees (employees L) term)
    /\ (forall l l', result = Some l -> result' = Some l' -> l <> l')
    /\ (forall l, result = Some l ->
          exists r,
            nth_error (h ++ fresh) l = Some (Store.OReport r)
            /\ incl (Store.elements_of (h ++ fresh) (Store.ro_attendanceDetails r))
                    (Store.elements_of h (Store.p_attendance P))
            /\ incl (Store.elements_of (h ++ fresh) (Store.ro_advanceDetails r))
                    (Store.elements_of h (Store.p_advances P))
            /\ incl (Store.elements_of (h ++ fresh)
                       (Store.ro_salaryPaymentDetails r))
                    (Store.elements_of h (Store.p_salaryPayments P))).
Proof.
  intros HL.
  destruct (generateMonthlyReport_on_store tza P h L eid m HL)
    as (result & fresh & Hrun & Hread & Hshare).
  pose proof (ledgers_of_extend _ fresh _ _ HL) as HL1.
  destruct (generateMonthlyReport_on_store tza P _ L eid m HL1)
    as (result' & fresh' & Hrun' & Hread' & Hshare').
  pose proof (ledgers_of_extend _ fresh' _ _ HL1) as HL2.
  destruct (filteredEmployees_on_store P _ L term HL2)
    as (kept & Hsearch & Hfound & _).
  exists result, fresh, result', fresh', (List.length ((h ++ fresh) ++ fresh')),
    [Store.OArray kept].
  split; [exact Hrun|]. split; [exact Hrun'|]. split; [exact Hsearch|].
  split; [intros l o Hl; now do 3 apply nth_error_extend|].
  split; [now apply ledgers_of_extend|].
  split; [now do 2 apply read_result_extend|].
  split; [now apply read_result_extend|].
  split; [exact Hfound|].
  split.
  - intros l l' -> ->.
    destruct (Hshare l eq_refl) as (r & Hl & _).
    destruct (Hshare' l' eq_refl) as (r' & _ & Hl' & _).
    assert (l < List.length (h ++ fresh))%nat
      by (apply nth_error_Some; congruence).
    lia.
  - intros l Hl. destruct (Hshare l Hl) as (r & Hr & _ & I1 & I2 & I3).
    exists r. now repeat split.
Qed.

Lemma invocations_leave_the_store_witness :
  exists result fresh fresh' fresh'',
    Store.run_generateMonthlyReport JSDate.tzIST (snd (Store.store_of january))
      "e1" "2024-01" (fst (Store.store_of january))
    = Some (result, fst (Store.store_of january) ++ fresh)
    /\ Store.ledgers_of
         (((fst (Store.store_of january) ++ fresh) ++ fresh') ++ fresh'')
         (snd (Store.store_of january))
       = Some january
    /\ Store.read_result
         (((fst (Store.store_of january) ++ fresh) ++ fresh') ++ fresh'') result
       = Some (generateMonthlyReport JSDate.tzIST january "e1" "2024-01").
Proof.
  destruct (invocations_leave_the_store JSDate.tzIST
              (snd (Store.store_of january)) (fst (Store.store_of january))
              january "e1" "2024-01" "mason" eq_refl)
    as (result & fresh & result' & fresh' & found & fresh''
        & Hrun & _ & _ & _ & Hledgers & Hread & _).
  exists result, fresh, fresh', fresh''. now repeat split.
Defined.

(** A method that writes shows what the statement excludes: after
    [employees.reverse()] the store holds another collection. *)
Example reverse_writes_to_its_array :
  match Store.Array_reverse (Store.p_employees (snd (Store.store_of january)))
          (fst (Store.store_of january)) with
  | Some (_, h') =>
      option_map employees (Store.ledgers_of h' (snd (Store.store_of january)))
      = Some [ravi; asha]
  | None => False
  end.
Proof. vm_compute. reflexivity. Qed.

(** ** The search *)

Lemma prefix_app (t s : string) :
  String.prefix t s = true <-> exists suf, s = (t ++ suf)%string.
Proof.
  revert s; induction t as [|c t IH]; intros s.
  - destruct s; simpl; split; eauto.
  - destruct s as [|c' s]; simpl.
    + split; [discriminate | intros [suf H]; discriminate].
    + destruct (ascii_dec c c') as [->|Hneq].
      * rewrite IH. split; intros [suf H]; exists suf; congruence.
      * split; [discriminate | intros [suf H]; congruence].
Qed.

Lemma includes_app (s t : string) :
  JSString.includes s t = true
  <-> exists pre suf, s = (pre ++ t ++ suf)%string.
Proof.
  induction s as [|c s IH].
  - cbn [JSString.includes]. rewrite orb_false_r, prefix_app. split.
    + intros [suf H]. now exists EmptyString, suf.
    + intros (pre & suf & H). destruct pre; [now exists suf | discriminate].
  - cbn [JSString.includes]. rewrite orb_true_iff, IH, prefix_app. split.
    + intros [[suf H] | (pre & suf & H)].
      * now exists EmptyString, suf.
      * exists (String c pre), suf. simpl. now rewrite H.
    + intros (pre & suf & H). destruct pre as [|c' pre].
      * left. now exists suf.
      * right. exists pre, suf. simpl in H. congruence.
Qed.

Lemma toLowerCase_app (a b : string) :
  JSString.toLowerCase (a ++ b)
  = (JSString.toLowerCase a ++ JSString.toLowerCase b)%string.
Proof. induction a as [|c a IH]; simpl; congruence. Qed.

Lemma toLowerCase_split (s x y : string) :
  JSString.toLowerCase s = (x ++ y)%string ->
  exists a b, s = (a ++ b)%string
              /\ JSString.toLowerCase a = x /\ JSString.toLowerCase b = y.
Proof.
  revert s; induction x as [|c x IH]; intros s H.
  - now exists EmptyString, s.
  - destruct s as [|c' s]; [discriminate|].
    simpl in H. injection H as Hc Hs.
    destruct (IH s Hs) as (a & b & -> & Ha & Hb).
    exists (String c' a), b. simpl. now rewrite Hc, Ha, Hb.
Qed.

Lemma includes_ignoring_case (s t : string) :
  JSString.includes (JSString.toLowerCase s) (JSString.toLowerCase t) = true
  <-> contains_ignoring_case s t.
Proof.
  rewrite includes_app. split.
  - intros (pre & suf & H).
    destruct (toLowerCase_split _ _ _ H) as (a & bc & -> & _ & Hbc).
    destruct (toLowerCase_split _ _ _ Hbc) as (b & c & -> & Hb & _).
    now exists a, b, c.
  - intros (pre & mid & suf & -> & Hmid).
    exists (JSString.toLowerCase pre), (JSString.toLowerCase suf).
    now rewrite !toLowerCase_app, Hmid.
Qed.




(** ** The lines of the payslip *)

Lemma append_empty_r (s : string) : (s ++ "")%string = s.
Proof. induction s as [|c s IH]; simpl; congruence. Qed.

Lemma append_assoc (a b c : string) :
  ((a ++ b) ++ c)%string = (a ++ b ++ c)%string.
Proof. induction a as [|x a IH]; simpl; congruence. Qed.

Lemma one_line_append (a b : string) :
  JSString.one_line a = true -> JSString.one_line b = true ->
  JSString.one_line (a ++ b) = true.
Proof.
  intros Ha Hb. induction a as [|c a IH]; [assumption|].
  simpl in *. apply andb_true_iff in Ha. destruct Ha as [Hc Ha].
  now rewrite Hc, IH.
Qed.

Lemma one_line_uint (d : Decimal.uint) :
  JSString.one_line (NilEmpty.string_of_uint d) = true.
Proof. induction d; simpl; auto. Qed.

Lemma one_line_of_nat (n : nat) : JSString.one_line (JSString.of_nat n) = true.
Proof.
  unfold JSString.of_nat, NilZero.string_of_uint.
  destruct (Nat.to_uint n) eqn:E; try reflexivity;
    rewrite <- E; apply one_line_uint.
Qed.

Lemma lines_from_one_line (a b cur : string) :
  JSString.one_line a = true ->
  JSString.lines_from cur (a ++ JSString.nl ++ b)
  = (cur ++ a)%string :: JSString.lines_from EmptyString b.
Proof.
  revert cur; induction a as [|c a IH]; intros cur Ha.
  - simpl. now rewrite append_empty_r.
  - simpl in Ha. apply andb_true_iff in Ha. destruct Ha as [Hc Ha].
    cbn [append JSString.lines_from].
    destruct (Ascii.eqb c (ascii_of_nat 10)); [discriminate|].
    rewrite (IH _ Ha), append_assoc. reflexivity.
Qed.

Lemma lines_join_cons (l l' : string) (ls : list string) :
  JSString.one_line l = true ->
  JSString.lines (JSString.join JSString.nl (l :: l' :: ls))
  = l :: JSString.lines (JSString.join JSString.nl (l' :: ls)).
Proof.
  intros Hl. unfold JSString.lines, JSString.join. cbn [concat].
  now rewrite (lines_from_one_line _ _ EmptyString Hl).
Qed.

Create HintDb one_line.

#[local] Hint Resolve one_line_append one_line_of_nat : one_line.
#[local] Hint Extern 1 (JSString.one_line _ = true) => reflexivity : one_line.

Section Payslip.

Context {F : Formatter}.

(** The formatter writes an amount on one line. *)
Hypothesis formatCurrency_one_line :
  forall n, JSString.one_line (formatCurrency n) = true.

Lemma one_line_category_line label unit records :
  JSString.one_line label = true -> JSString.one_line unit = true ->
  JSString.one_line (category_line label unit records) = true.
Proof.
  intros Hl Hu. unfold category_line.
  destruct (Nat.ltb 0 (List.length records)); auto 10 with one_line.
Qed.

Lemma category_line_cases label unit records :
  category_line label unit records
  = match records with
    | [] => EmptyString
    | _ :: _ =>
        (label ++ " (" ++ JSString.of_nat (List.length records) ++ unit ++ "): "
         ++ formatCurrency (sumZ (map custom_or_zero records)))%string
    end.
Proof.
  unfold category_line. rewrite category_amount_sumZ.
  destruct records; reflexivity.
Qed.

(** C7, as the code has it: when the name, designation and contact of the
    employee, the report period and the formatted amounts hold no line feed,
    lines 14 to 18 of the payslip are the additional earnings, the overtime
    line, the half-day line, the custom-payment line and the total; a
    category line carries the count and the summed custom amount of its
    list when the list is not empty, and is an empty line, still present in
    the text, when the list is empty. *)
Theorem payslip_category_lines selectedMonth (e : Employee) (r : MonthlyReport) :
  JSString.one_line (name e) = true ->
  JSString.one_line (designation e) = true ->
  JSString.one_line (contactNumber e) = true ->
  JSString.one_line (toLocaleMonthYear selectedMonth) = true ->
  let text := JSString.lines (reportContent selectedMonth e r) in
  nth_error text 14
  = Some ("Additional Earnings: " ++ formatCurrency (additionalEarnings r))%string
  /\ nth_error text 15
     = Some match otRecords r with
            | [] => EmptyString
            | _ :: _ =>
                ("Overtime (" ++ JSString.of_nat (List.length (otRecords r))
                 ++ " days): "
                 ++ formatCurrency (sumZ (map custom_or_zero (otRecords r))))%string
            end
  /\ nth_error text 16
     = Some match halfDayRecords r with
            | [] => EmptyString
            | _ :: _ =>
                ("Half Days (" ++ JSString.of_nat (List.length (halfDayRecords r))
                 ++ " days): "
                 ++ formatCurrency
                      (sumZ (map custom_or_zero (halfDayRecords r))))%string
            end
  /\ nth_error text 17
     = Some match customPaymentRecords r with
            | [] => EmptyString
            | _ :: _ =>
                ("Custom Payments ("
                 ++ JSString.of_nat (List.length (customPaymentRecords r)) ++ "): "
                 ++ formatCurrency
                      (sumZ (map custom_or_zero (customPaymentRecords r))))%string
            end
  /\ nth_error text 18
     = Some ("Total Wages Earned: " ++ formatCurrency (totalWagesEarned r))%string.
Proof.
  intros Hname Hdes Hcontact Hperiod text. subst text. unfold reportContent.
  pose proof one_line_category_line as Hcat.
  do 19 (rewrite lines_join_cons by auto 10 with one_line).
  cbn [nth_error]. rewrite !category_line_cases.
  repeat split; destruct (otRecords r), (halfDayRecords r),
    (customPaymentRecords r); reflexivity.
Qed.

End Payslip.

Lemma plain_currency_one_line (n : Z) :
  JSString.one_line (plain_currency n) = true.
Proof.
  unfold plain_currency. apply one_line_append; [reflexivity|].
  apply one_line_append; [destruct (n <? 0); reflexivity|].
  unfold NilZero.string_of_uint.
  destruct (N.to_uint _) eqn:E; try reflexivity; rewrite <- E; apply one_line_uint.
Qed.

Lemma payslip_category_lines_witness :
  match generateMonthlyReport JSDate.tzIST january "e1" "2024-01" with
  | Some r =>
      let text := JSString.lines (reportContent "2024-01" asha r) in
      nth_error text 15 = Some "Overtime (1 days): Rs300"%string
      /\ nth_error text 16 = Some "Half Days (1 days): Rs250"%string
      /\ nth_error text 17 = Some "Custom Payments (1): Rs100"%string
  | None => False
  end.
Proof.
  destruct (generateMonthlyReport JSDate.tzIST january "e1" "2024-01")
    as [r|] eqn:E; [|vm_compute in E; discriminate E].
  destruct (@payslip_category_lines plain_formatter plain_currency_one_line
              "2024-01" asha r
              eq_refl eq_refl eq_refl eq_refl) as (_ & H15 & H16 & H17 & _).
  cbv zeta. rewrite H15, H16, H17.
  vm_compute in E. injection E as <-. repeat split.
Defined.

(** C7 does not hold as stated: for an employee without attendance
    in the month the three category lists are empty, and the payslip holds
    three empty lines between the additional earnings and the total. *)
Lemma payslip_blank_lines_for_empty_categories :
  match generateMonthlyReport JSDate.tzIST january "e2" "2024-01",
        downloadReport JSDate.tzIST january "e2" "2024-01" with
  | Some r, Some (_, text) =>
      otRecords r = [] /\ halfDayRecords r = [] /\ customPaymentRecords r = []
      /\ firstn 5 (skipn 14 (JSString.lines text))
         = ["Additional Earnings: Rs0"; ""; ""; ""; "Total Wages Earned: Rs0"]%string
  | _, _ => False
  end.
Proof. vm_compute. repeat split. Qed.

(** ** The window of the month *)

Lemma cycle_months_ok : forallb month_start_ok cycle_months = true.
Proof. vm_compute. reflexivity. Qed.

Lemma in_cycle_months y m :
  0 <= y < 400 -> 1 <= m <= 12 -> In (y, m) cycle_months.
Proof.
  intros Hy Hm. unfold cycle_months. apply in_prod.
  - rewrite <- (Z2Nat.id y) by lia. apply in_map, in_seq. lia.
  - rewrite <- (Z2Nat.id m) by lia. apply in_map, in_seq. lia.
Qed.

(** The calendar repeats every 400 years, that is every 146097 days. *)
Lemma days_from_civil_shift y m d k :
  JSDate.days_from_civil (y + 400 * k) m d
  = JSDate.days_from_civil y m d + 146097 * k.
Proof.
  unfold JSDate.days_from_civil.
  assert (E : forall a, (a + 400 * k) / 400 = a / 400 + k).
  { intros a. rewrite (Z.mul_comm 400 k). apply Z.div_add. lia. }
  destruct (m <=? 2).
  - replace (y + 400 * k - 1) with (y - 1 + 400 * k) by lia. rewrite E.
    replace (y - 1 + 400 * k - ((y - 1) / 400 + k) * 400)
      with (y - 1 - (y - 1) / 400 * 400) by lia.
    lia.
  - rewrite E.
    replace (y + 400 * k - (y / 400 + k) * 400) with (y - y / 400 * 400) by lia.
    lia.
Qed.

Lemma civil_from_days_shift z k :
  JSDate.civil_from_days (z + 146097 * k)
  = let '(y, m, d) := JSDate.civil_from_days z in (y + 400 * k, m, d).
Proof.
  unfold JSDate.civil_from_days.
  replace (z + 146097 * k + 719468) with (z + 719468 + k * 146097) by lia.
  rewrite Z.div_add by lia.
  replace (z + 719468 + k * 146097 - ((z + 719468) / 146097 + k) * 146097)
    with (z + 719468 - (z + 719468) / 146097 * 146097) by lia.
  set (doe := z + 719468 - (z + 719468) / 146097 * 146097).
  set (yoe := (doe - doe / 1460 + doe / 36524 - doe / 146096) / 365).
  set (doy := doe - (365 * yoe + yoe / 4 - yoe / 100)).
  set (mp := (5 * doy + 2) / 153).
  cbv zeta.
  destruct ((if mp <? 10 then mp + 3 else mp - 9) <=? 2); f_equal; f_equal; lia.
Qed.

Lemma next_month_start_shift y m k :
  next_month_start (y + 400 * k) m = next_month_start y m + 146097 * k.
Proof.
  unfold next_month_start. destruct (m =? 12).
  - replace (y + 400 * k + 1) with (y + 1 + 400 * k) by lia.
    apply days_from_civil_shift.
  - apply days_from_civil_shift.
Qed.

Lemma month_start_civil y m :
  1 <= m <= 12 ->
  JSDate.civil_from_days (JSDate.days_from_civil y m 1) = (y, m, 1)
  /\ fst (JSDate.civil_from_days (JSDate.days_from_civil y m 1 - 1))
     = (if m =? 1 then y - 1 else y, if m =? 1 then 12 else m - 1)
  /\ JSDate.days_from_civil y m 1 < next_month_start y m.
Proof.
  intros Hm.
  assert (Hy : y = y mod 400 + 400 * (y / 400))
    by (pose proof (Z.div_mod y 400); lia).
  assert (Hr : 0 <= y mod 400 < 400) by (apply Z.mod_pos_bound; lia).
  set (k := y / 400) in *. set (y0 := y mod 400) in *.
  pose proof (proj1 (forallb_forall _ _) cycle_months_ok _
                (in_cycle_months y0 m Hr Hm)) as Hok.
  unfold month_start_ok in Hok.
  rewrite Hy, next_month_start_shift, days_from_civil_shift.
  replace (JSDate.days_from_civil y0 m 1 + 146097 * k - 1)
    with (JSDate.days_from_civil y0 m 1 - 1 + 146097 * k) by lia.
  rewrite !civil_from_days_shift.
  destruct (JSDate.civil_from_days (JSDate.days_from_civil y0 m 1)) as [[y1 m1] d1].
  destruct (JSDate.civil_from_days (JSDate.days_from_civil y0 m 1 - 1))
    as [[y' m'] d'].
  rewrite !andb_true_iff, !Z.eqb_eq, Z.ltb_lt in Hok.
  destruct Hok as (((((-> & ->) & ->) & ->) & ->) & Hlt).
  cbn [fst]. repeat split; [|lia].
  destruct (m =? 1); f_equal; lia.
Qed.

(** [MakeDay(y, m, 0)] with [m] the month counted from 1, that is the month
    after it counted from 0, is the last day of month [m]. *)
Lemma MakeDay_day_0 y m :
  1 <= m <= 12 -> JSDate.MakeDay y m 0 = next_month_start y m - 1.
Proof.
  intros Hm. unfold JSDate.MakeDay, next_month_start.
  destruct (Z.eqb_spec m 12) as [->|Hneq].
  - change (12 / 12) with 1. change (12 mod 12 + 1) with 1. lia.
  - rewrite Z.div_small, Z.mod_small by lia.
    replace (y + 0) with y by lia. lia.
Qed.

Lemma Day_local_east tza D :
  0 <= tza < JSDate.msPerDay ->
  JSDate.Day (JSDate.LocalTime tza (D * JSDate.msPerDay)) = D.
Proof.
  intros H. unfold JSDate.Day, JSDate.LocalTime.
  rewrite Z.add_comm, Z.div_add by (unfold JSDate.msPerDay; lia).
  rewrite Z.div_small by assumption. lia.
Qed.

Lemma Day_local_west tza D :
  - JSDate.msPerDay < tza < 0 ->
  JSDate.Day (JSDate.LocalTime tza (D * JSDate.msPerDay)) = D - 1.
Proof.
  intros H. unfold JSDate.Day, JSDate.LocalTime.
  replace (D * JSDate.msPerDay + tza)
    with (tza + JSDate.msPerDay + (D - 1) * JSDate.msPerDay) by lia.
  rewrite Z.div_add by (unfold JSDate.msPerDay; lia).
  rewrite Z.div_small by lia. lia.
Qed.

Section Window.

(** The month token [month] stands for month [m] of year [y], a year that
    [new Date(year, month, date)] does not read as a year of the twentieth
    century. *)
Variables (tza : Z) (month : string) (y m : Z).
Hypothesis month_token :
  monthStart month = Some (JSDate.days_from_civil y m 1 * JSDate.msPerDay).
Hypothesis month_range : 1 <= m <= 12.
Hypothesis year_range : 100 < y.

(** East of Greenwich, and on it, [monthEnd] is the local midnight that
    opens the last day of the month. *)
Lemma monthEnd_east :
  0 <= tza < JSDate.msPerDay ->
  monthEnd tza month
  = Some ((next_month_start y m - 1) * JSDate.msPerDay - tza).
Proof.
  intros Htz. unfold monthEnd. rewrite month_token.
  unfold JSDate.getFullYear, JSDate.getMonth, JSDate.YearFromTime,
    JSDate.MonthFromTime. cbn [option_map].
  rewrite (Day_local_east _ _ Htz).
  destruct (month_start_civil y m month_range) as (-> & _ & _).
  unfold JSDate.fromFields, JSDate.UTC.
  replace ((0 <=? y) && (y <=? 99)) with false
    by (symmetry; apply andb_false_iff; right; apply Z.leb_gt; lia).
  replace (m - 1 + 1) with m by lia.
  now rewrite (MakeDay_day_0 y m month_range).
Qed.

(** West of Greenwich the first of the month at midnight UTC is still the
    month before, and [monthEnd] is the local midnight that opens the last
    day of that month: it lies before [monthStart]. *)
Lemma monthEnd_west :
  - JSDate.msPerDay < tza < 0 ->
  monthEnd tza month
  = Some ((JSDate.days_from_civil y m 1 - 1) * JSDate.msPerDay - tza).
Proof.
  intros Htz. unfold monthEnd. rewrite month_token.
  unfold JSDate.getFullYear, JSDate.getMonth, JSDate.YearFromTime,
    JSDate.MonthFromTime. cbn [option_map].
  rewrite (Day_local_west _ _ Htz).
  destruct (month_start_civil y m month_range) as (_ & Hprev & _).
  destruct (JSDate.civil_from_days (JSDate.days_from_civil y m 1 - 1))
    as [[y0 m0] d0].
  cbn [fst] in Hprev. injection Hprev as -> ->.
  unfold JSDate.fromFields, JSDate.UTC.
  destruct (Z.eqb_spec m 1) as [->|Hneq].
  - replace ((0 <=? y - 1) && (y - 1 <=? 99)) with false
      by (symmetry; apply andb_false_iff; right; apply Z.leb_gt; lia).
    rewrite MakeDay_day_0 by lia. unfold next_month_start. cbn [Z.eqb Pos.eqb].
    replace (y - 1 + 1) with y by lia. reflexivity.
  - replace ((0 <=? y) && (y <=? 99)) with false
      by (symmetry; apply andb_false_iff; right; apply Z.leb_gt; lia).
    replace (m - 1 - 1 + 1) with (m - 1) by lia.
    rewrite MakeDay_day_0 by lia. unfold next_month_start.
    destruct (Z.eqb_spec (m - 1) 12); [lia|].
    replace (m - 1 + 1) with m by lia. reflexivity.
Qed.

(** What the filter keeps, for a record of the employee dated on the day of
    number [D]: in UTC the days of the month; east of Greenwich the days of
    the month but the last; west of Greenwich nothing. *)
Theorem month_window (eid recordEmployee recordDate : string) (D : Z) :
  JSDate.parse recordDate = Some (D * JSDate.msPerDay) ->
  (tza = 0 ->
   in_month tza eid month recordEmployee recordDate
   = String.eqb recordEmployee eid
     && (JSDate.days_from_civil y m 1 <=? D) && (D <=? next_month_start y m - 1))
  /\ (0 < tza < JSDate.msPerDay ->
      in_month tza eid month recordEmployee recordDate
      = String.eqb recordEmployee eid
        && (JSDate.days_from_civil y m 1 <=? D) && (D <=? next_month_start y m - 2))
  /\ (- JSDate.msPerDay < tza < 0 ->
      in_month tza eid month recordEmployee recordDate = false).
Proof.
  intros Hdate. unfold in_month. rewrite Hdate, month_token.
  assert (Hms : JSDate.msPerDay = 86400000) by reflexivity.
  split; [|split]; intros Htz.
  - rewrite monthEnd_east by lia. cbn [JSDate.geb JSDate.leb].
    f_equal; [f_equal|]; apply eq_true_iff_eq;
      rewrite !Z.leb_le; lia.
  - rewrite monthEnd_east by lia. cbn [JSDate.geb JSDate.leb].
    f_equal; [f_equal|]; apply eq_true_iff_eq;
      rewrite !Z.leb_le; lia.
  - rewrite monthEnd_west by lia. cbn [JSDate.geb JSDate.leb].
    rewrite <- andb_assoc. apply andb_false_iff. right.
    apply andb_false_iff.
    destruct (Z.leb_spec (JSDate.days_from_civil y m 1 * JSDate.msPerDay)
                (D * JSDate.msPerDay)); [right|now left].
    apply Z.leb_gt. lia.
Qed.

(** The days a report keeps: [D] lies in the month, and not on its last day
    unless the zone is UTC; no day at all west of Greenwich. *)
Let kept (D : Z) : Prop :=
  (tza = 0 /\ JSDate.days_from_civil y m 1 <= D <= next_month_start y m - 1)
  \/ (0 < tza < JSDate.msPerDay
      /\ JSDate.days_from_civil y m 1 <= D <= next_month_start y m - 2).

Lemma in_month_kept (eid recordEmployee recordDate : string) (D : Z) :
  - JSDate.msPerDay < tza < JSDate.msPerDay ->
  JSDate.parse recordDate = Some (D * JSDate.msPerDay) ->
  in_month tza eid month recordEmployee recordDate = true
  <-> recordEmployee = eid /\ kept D.
Proof.
  intros Htz Hdate.
  destruct (month_window eid recordEmployee recordDate D Hdate)
    as (Hutc & Heast & Hwest).
  unfold kept.
  destruct (Z.lt_trichotomy tza 0) as [Hneg | [Hzero | Hpos]].
  - rewrite Hwest by lia. split; [discriminate | intros [_ [[? _]|[? _]]]; lia].
  - rewrite (Hutc Hzero), !andb_true_iff, String.eqb_eq, !Z.leb_le.
    split; [intros [[? ?] ?]; split; [assumption | left; lia]
           | intros [? [[_ ?]|[? _]]]; [tauto | lia]].
  - rewrite Heast by lia. rewrite !andb_true_iff, String.eqb_eq, !Z.leb_le.
    split; [intros [[? ?] ?]; split; [assumption | right; lia]
           | intros [? [[? _]|[_ ?]]]; [lia | tauto]].
Qed.

(** The three detail lists of a report hold the records of the employee
    dated on a kept day.  The inclusive month of C2 is what the report
    covers when the offset of the zone is zero, and only then. *)
Theorem report_window (L : Ledgers) (eid : string) (r : MonthlyReport) :
  - JSDate.msPerDay < tza < JSDate.msPerDay ->
  generateMonthlyReport tza L eid month = Some r ->
  (forall a D, JSDate.parse (att_date a) = Some (D * JSDate.msPerDay) ->
     In a (attendanceDetails r)
     <-> In a (attendance L) /\ att_employeeId a = eid /\ kept D)
  /\ (forall a D, JSDate.parse (adv_date a) = Some (D * JSDate.msPerDay) ->
        In a (advanceDetails r)
        <-> In a (advances L) /\ adv_employeeId a = eid /\ kept D)
  /\ (forall p D, JSDate.parse (paymentDate p) = Some (D * JSDate.msPerDay) ->
        In p (salaryPaymentDetails r)
        <-> In p (salaryPayments L) /\ pay_employeeId p = eid /\ kept D).
Proof.
  intros Htz H. report_fields H.
  unfold monthAttendance, monthAdvances, monthSalaryPayments.
  split; [|split]; intros a D Hdate; rewrite filter_In;
    rewrite (in_month_kept _ _ _ D Htz Hdate); tauto.
Qed.

End Window.

Lemma month_window_witness :
  in_month JSDate.tzUTC "e1" "2024-01" "e1" "2024-01-31" = true
  /\ in_month JSDate.tzIST "e1" "2024-01" "e1" "2024-01-31" = false
  /\ in_month JSDate.tzNewYork "e1" "2024-01" "e1" "2024-01-01" = false.
Proof.
  split; [|split].
  - rewrite (proj1 (month_window JSDate.tzUTC "2024-01" 2024 1
                      eq_refl ltac:(lia) ltac:(lia)
                      "e1" "e1" "2024-01-31" 19753 eq_refl) eq_refl).
    reflexivity.
  - rewrite (proj1 (proj2 (month_window JSDate.tzIST "2024-01" 2024 1
                             eq_refl ltac:(lia) ltac:(lia)
                             "e1" "e1" "2024-01-31" 19753 eq_refl))
               ltac:(vm_compute; split; reflexivity)).
    reflexivity.
  - apply (proj2 (proj2 (month_window JSDate.tzNewYork "2024-01" 2024 1
                           eq_refl ltac:(lia) ltac:(lia)
                           "e1" "e1" "2024-01-01" 19723 eq_refl))).
    vm_compute. split; reflexivity.
Defined.

Lemma report_window_witness :
  match generateMonthlyReport JSDate.tzIST boundary_days "e1" "2024-01" with
  | Some r =>
      ~ In (att "2024-01-31" true None None) (attendanceDetails r)
      /\ In (att "2024-01-01" true None None) (attendanceDetails r)
  | None => False
  end.
Proof.
  destruct (generateMonthlyReport JSDate.tzIST boundary_days "e1" "2024-01")
    as [r|] eqn:E; [|vm_compute in E; discriminate E].
  destruct (report_window JSDate.tzIST "2024-01" 2024 1
              eq_refl ltac:(lia) ltac:(lia) boundary_days "e1" r
              ltac:(vm_compute; split; reflexivity) E) as (Hatt & _ & _).
  split.
  - rewrite (Hatt (att "2024-01-31" true None None) 19753 eq_refl). intros (_ & _ & [[Hz _] | [_ Hd]]).
    + discriminate Hz.
    + vm_compute in Hd. destruct Hd as [_ Hd]. now apply Hd.
  - rewrite (Hatt (att "2024-01-01" true None None) 19723 eq_refl). split; [right; left; reflexivity|].
    split; [reflexivity|]. right. vm_compute. repeat split; discriminate.
Defined.

(** C2 asks that a record dated on the last day of the month be in the
    report.  In India (UTC+05:30) the report of January 2024 keeps, of the
    records dated 2023-12-31, 2024-01-01, 2024-01-31 and 2024-02-01 in each
    ledger, the one of 2024-01-01 only: the record of the last day of the
    month is dropped from the attendance, the advances and the salary
    payments. *)
Theorem last_day_dropped_in_india :
  match generateMonthlyReport JSDate.tzIST boundary_days "e1" "2024-01" with
  | Some r =>
      map att_date (attendanceDetails r) = ["2024-01-01"%string]
      /\ map adv_date (advanceDetails r) = ["2024-01-01"%string]
      /\ map paymentDate (salaryPaymentDetails r) = ["2024-01-01"%string]
      /\ totalDaysWorked r = 1%nat
  | None => False
  end.
Proof. vm_compute. repeat split. Qed.

(** The same ledgers in UTC: the first and the last day are kept, the days
    next to them are not. *)
Example both_boundaries_kept_in_utc :
  match generateMonthlyReport JSDate.tzUTC boundary_days "e1" "2024-01" with
  | Some r =>
      map att_date (attendanceDetails r) = ["2024-01-01"; "2024-01-31"]%string
      /\ map adv_date (advanceDetails r) = ["2024-01-01"; "2024-01-31"]%string
      /\ map paymentDate (salaryPaymentDetails r)
         = ["2024-01-01"; "2024-01-31"]%string
  | None => False
  end.
Proof. vm_compute. repeat split. Qed.

(** The same ledgers in New York (UTC-05:00): the report is empty. *)
Example nothing_kept_in_new_york :
  match generateMonthlyReport JSDate.tzNewYork boundary_days "e1" "2024-01" with
  | Some r =>
      attendanceDetails r = [] /\ advanceDetails r = []
      /\ salaryPaymentDetails r = []
  | None => False
  end.
Proof. vm_compute. repeat split. Qed.

(** * Further properties of the component *)

(** ** The employee of the report and the base wages *)


Lemma find_id_unique (es : list Employee) (e : Employee) :
  NoDup (map id es) -> In e es ->
  find (fun e' => String.eqb (id e') (id e)) es = Some e.
Proof.
  induction es as [|x es IH]; intros Hnd He; [destruct He|].
  cbn [map] in Hnd. apply NoDup_cons_iff in Hnd. destruct Hnd as [Hx Hnd].
  cbn [find]. destruct (String.eqb_spec (id x) (id e)) as [Heq|Hneq].
  - destruct He as [->|He]; [reflexivity|].
    exfalso. apply Hx. rewrite Heq. now apply in_map.
  - destruct He as [->|He]; [congruence|]. now apply IH.
Qed.

Lemma base_wages_of_found tza L eid m e r :
  find (fun e => String.eqb (id e) eid) (employees L) = Some e ->
  generateMonthlyReport tza L eid m = Some r ->
  baseWages r = dailyWage e * Z.of_nat (totalDaysWorked r)
  /\ finalAmount r
     = dailyWage e * Z.of_nat (totalDaysWorked r) + additionalEarnings r
       - totalAdvancesTaken r - totalSalaryPaid r.
Proof.
  intros Hfind H.
  rewrite (generateMonthlyReport_found _ _ _ _ _ Hfind) in H. injection H as <-.
  split; reflexivity.
Qed.



(** ** Whose records a report holds *)

Lemma in_month_true tza eid m recordEmployee recordDate :
  in_month tza eid m recordEmployee recordDate = true ->
  recordEmployee = eid
  /\ JSDate.parse recordDate <> None
  /\ monthStart m <> None /\ monthEnd tza m <> None.
Proof.
  unfold in_month. rewrite !andb_true_iff, String.eqb_eq.
  intros [[Hid Hge] Hle]. split; [assumption|].
  destruct (JSDate.parse recordDate), (monthStart m), (monthEnd tza m);
    try discriminate; repeat split; discriminate.
Qed.

(** The details of a report are records of the ledgers, of the employee of
    the report, with a date that parses: a record of somebody else, or one
    whose date is an Invalid Date, is never in a report. *)
Theorem report_holds_own_records tza L eid m r :
  generateMonthlyReport tza L eid m = Some r ->
  (forall a, In a (attendanceDetails r) ->
     In a (attendance L) /\ att_employeeId a = eid
     /\ JSDate.parse (att_date a) <> None)
  /\ (forall a, In a (advanceDetails r) ->
        In a (advances L) /\ adv_employeeId a = eid
        /\ JSDate.parse (adv_date a) <> None)
  /\ (forall p, In p (salaryPaymentDetails r) ->
        In p (salaryPayments L) /\ pay_employeeId p = eid
        /\ JSDate.parse (paymentDate p) <> None).
Proof.
  intros H. report_fields H.
  unfold monthAttendance, monthAdvances, monthSalaryPayments.
  split; [|split]; intros a Ha; apply filter_In in Ha; destruct Ha as [Ha Hin];
    apply in_month_true in Hin; tauto.
Qed.

Lemma report_holds_own_records_witness :
  match generateMonthlyReport JSDate.tzIST january "e1" "2024-01" with
  | Some r =>
      (forall a, In a (advanceDetails r) -> adv_employeeId a = "e1"%string)
      /\ map adv_amount (advanceDetails r) = [200]
  | None => False
  end.
Proof.
  destruct (generateMonthlyReport JSDate.tzIST january "e1" "2024-01")
    as [r|] eqn:E; [|vm_compute in E; discriminate E].
  destruct (report_holds_own_records _ _ _ _ _ E) as (_ & Hadv & _).
  split; [intros a Ha; now apply Hadv|].
  vm_compute in E. injection E as <-. reflexivity.
Defined.

Lemma filter_andb {A : Type} (p q : A -> bool) (xs : list A) :
  filter (fun x => p x && q x) xs = filter q (filter p xs).
Proof.
  induction xs as [|x xs IH]; [reflexivity|].
  cbn [filter]. destruct (p x); cbn [andb filter]; [|assumption].
  destruct (q x); now rewrite IH.
Qed.

Lemma filter_in_month_own {A : Type} (emp date : A -> string)
    tza eid m (xs : list A) :
  filter (fun x => in_month tza eid m (emp x) (date x)) xs
  = filter (fun x => JSDate.geb (JSDate.parse (date x)) (monthStart m)
                     && JSDate.leb (JSDate.parse (date x)) (monthEnd tza m))
           (filter (fun x => String.eqb (emp x) eid) xs).
Proof.
  rewrite <- filter_andb. apply filter_ext. intros x. unfold in_month.
  now rewrite andb_assoc.
Qed.

(** The report of an employee reads, of the three ledgers, the records of
    that employee only: ledgers that differ in the records of the others
    give the same report. *)
Theorem report_reads_own_records tza L L' eid m :
  employees L' = employees L ->
  same_own_records eid L L' ->
  generateMonthlyReport tza L' eid m = generateMonthlyReport tza L eid m.
Proof.
  intros Hemp (Hatt & Hadv & Hpay).
  assert (E1 : monthAttendance tza L' eid m = monthAttendance tza L eid m).
  { unfold monthAttendance.
    rewrite !(filter_in_month_own att_employeeId att_date). now rewrite Hatt. }
  assert (E2 : monthAdvances tza L' eid m = monthAdvances tza L eid m).
  { unfold monthAdvances.
    rewrite !(filter_in_month_own adv_employeeId adv_date). now rewrite Hadv. }
  assert (E3 : monthSalaryPayments tza L' eid m = monthSalaryPayments tza L eid m).
  { unfold monthSalaryPayments.
    rewrite !(filter_in_month_own pay_employeeId paymentDate). now rewrite Hpay. }
  unfold generateMonthlyReport. now rewrite Hemp, E1, E2, E3.
Qed.

Lemma report_reads_own_records_witness :
  generateMonthlyReport JSDate.tzIST
    {| employees := employees january;
       attendance := filter (fun a => String.eqb (att_employeeId a) "e1")
                            (attendance january);
       advances := filter (fun a => String.eqb (adv_employeeId a) "e1")
                          (advances january);
       salaryPayments := salaryPayments january |}
    "e1" "2024-01"
  = generateMonthlyReport JSDate.tzIST january "e1" "2024-01".
Proof.
  apply report_reads_own_records; [reflexivity|].
  repeat split; reflexivity.
Defined.

(** ** Reports without records *)

Lemma filter_none {A : Type} (p : A -> bool) (xs : list A) :
  (forall x, In x xs -> p x = false) -> filter p xs = [].
Proof.
  induction xs as [|x xs IH]; intros H; [reflexivity|].
  cbn [filter]. rewrite (H x (or_introl eq_refl)).
  apply IH. intros y Hy. apply H. now right.
Qed.

Lemma empty_month_empty_report tza L eid m r :
  monthAttendance tza L eid m = [] ->
  monthAdvances tza L eid m = [] ->
  monthSalaryPayments tza L eid m = [] ->
  generateMonthlyReport tza L eid m = Some r ->
  empty_report r.
Proof.
  intros E1 E2 E3 H. report_fields H. rewrite E1, E2, E3.
  unfold empty_report. cbn. rewrite Z.mul_0_r. repeat split.
Qed.

(** An employee without any record in the three ledgers has, for every
    month and in every zone, the empty report: no details, every amount
    zero; the balance reads as the formatted zero under "Fully Paid". *)
Theorem report_without_records (F : Formatter) tza L eid m r :
  (forall a, In a (attendance L) -> att_employeeId a <> eid) ->
  (forall a, In a (advances L) -> adv_employeeId a <> eid) ->
  (forall p, In p (salaryPayments L) -> pay_employeeId p <> eid) ->
  generateMonthlyReport tza L eid m = Some r ->
  empty_report r
  /\ formatBalance (finalAmount r) = formatCurrency 0
  /\ balanceLabel (finalAmount r) = "Fully Paid"%string.
Proof.
  intros Hatt Hadv Hpay H.
  assert (He : empty_report r).
  { apply (empty_month_empty_report tza L eid m r); [| | |exact H];
      apply filter_none; intros x Hx; unfold in_month;
      [ pose proof (Hatt x Hx) as Hn | pose proof (Hadv x Hx) as Hn
      | pose proof (Hpay x Hx) as Hn ];
      apply String.eqb_neq in Hn; now rewrite Hn. }
  split; [exact He|].
  destruct He as (_ & _ & _ & _ & _ & _ & _ & _ & _ & _ & _ & _ & ->).
  split; reflexivity.
Qed.

Lemma report_without_records_witness :
  match generateMonthlyReport JSDate.tzIST asha_only "e2" "2024-01" with
  | Some r => empty_report r /\ formatBalance (finalAmount r) = "Rs0"%string
  | None => False
  end.
Proof.
  destruct (generateMonthlyReport JSDate.tzIST asha_only "e2" "2024-01")
    as [r|] eqn:E; [|vm_compute in E; discriminate E].
  destruct (report_without_records plain_formatter
              JSDate.tzIST asha_only "e2" "2024-01" r) as (He & Hb & _).
  - intros a Ha. cbn in Ha.
    repeat (destruct Ha as [<-|Ha]; [discriminate|]). destruct Ha.
  - intros a Ha. cbn in Ha.
    repeat (destruct Ha as [<-|Ha]; [discriminate|]). destruct Ha.
  - intros p Hp. cbn in Hp.
    repeat (destruct Hp as [<-|Hp]; [discriminate|]). destruct Hp.
  - exact E.
  - split; assumption.
Defined.

(** When the month token does not give a date ([new Date(month + '-01')]
    is an Invalid Date), every comparison of the filters is false and the
    employee gets the empty report. *)
Theorem report_of_invalid_month tza L eid m r :
  monthStart m = None ->
  generateMonthlyReport tza L eid m = Some r ->
  empty_report r.
Proof.
  intros Hm H.
  apply (empty_month_empty_report tza L eid m r); [| | |exact H];
    apply filter_none; intros x _; unfold in_month; rewrite Hm;
    unfold JSDate.geb; destruct (JSDate.parse _);
    now rewrite ?andb_false_r.
Qed.

Lemma report_of_invalid_month_witness :
  match generateMonthlyReport JSDate.tzIST january "e1" "2024-13" with
  | Some r => empty_report r
  | None => False
  end.
Proof.
  destruct (generateMonthlyReport JSDate.tzIST january "e1" "2024-13")
    as [r|] eqn:E; [|vm_compute in E; discriminate E].
  apply (report_of_invalid_month JSDate.tzIST january "e1" "2024-13" r);
    [reflexivity | exact E].
Defined.

(** ** Deductions *)



(** ** Counts *)

Lemma filter_length {A : Type} (p : A -> bool) (xs : list A) :
  (List.length (filter p xs) <= List.length xs)%nat.
Proof.
  induction xs as [|x xs IH]; [constructor|].
  cbn [filter]. destruct (p x); cbn [List.length]; lia.
Qed.

Lemma category_counts (xs : list AttendanceRecord) :
  (List.length (filter (customType_is "ot") xs)
   + List.length (filter (customType_is "half-day") xs)
   + List.length (filter (customType_is "custom") xs)
   <= List.length xs)%nat.
Proof.
  induction xs as [|a xs IH]; [constructor|].
  cbn [filter].
  destruct (customType_is "ot" a) eqn:E1;
    destruct (customType_is "half-day" a) eqn:E2;
    destruct (customType_is "custom" a) eqn:E3;
    try (pose proof (customType_is_inj _ _ _ E1 E2); discriminate);
    try (pose proof (customType_is_inj _ _ _ E1 E3); discriminate);
    try (pose proof (customType_is_inj _ _ _ E2 E3); discriminate);
    cbn [List.length]; lia.
Qed.

(** The days worked of a report and the records its three category lines
    count, taken together, are at most the attendance records of the month,
    which are at most the attendance records of the ledger. *)
Theorem report_counts tza L eid m r :
  generateMonthlyReport tza L eid m = Some r ->
  (totalDaysWorked r <= List.length (attendanceDetails r))%nat
  /\ (List.length (otRecords r) + List.length (halfDayRecords r)
      + List.length (customPaymentRecords r)
      <= List.length (attendanceDetails r))%nat
  /\ (List.length (attendanceDetails r) <= List.length (attendance L))%nat
  /\ (List.length (advanceDetails r) <= List.length (advances L))%nat
  /\ (List.length (salaryPaymentDetails r) <= List.length (salaryPayments L))%nat.
Proof.
  intros H. report_fields H.
  split; [apply filter_length|]. split; [apply category_counts|].
  repeat split; apply filter_length.
Qed.

Lemma report_counts_witness :
  match generateMonthlyReport JSDate.tzIST january "e1" "2024-01" with
  | Some r =>
      (totalDaysWorked r <= List.length (attendanceDetails r))%nat
      /\ totalDaysWorked r = 4%nat
      /\ List.length (attendanceDetails r) = 7%nat
  | None => False
  end.
Proof.
  destruct (generateMonthlyReport JSDate.tzIST january "e1" "2024-01")
    as [r|] eqn:E; [|vm_compute in E; discriminate E].
  destruct (report_counts _ _ _ _ _ E) as (H1 & _).
  split; [exact H1|]. vm_compute in E. injection E as <-. split; reflexivity.
Defined.

(** ** The order of the ledgers *)





(** ** When there is something to download *)



(** ** Narrowing the search *)



Lemma search_test_matches (term : string) (e : Employee) :
  JSString.includes (JSString.toLowerCase (name e)) (JSString.toLowerCase term)
  || JSString.includes (JSString.toLowerCase (designation e))
       (JSString.toLowerCase term) = true
  <-> matches term e.
Proof.
  unfold matches. now rewrite orb_true_iff, !includes_ignoring_case.
Qed.





(** ** The employee grid *)

(** Every card of the grid is the card of an employee of the collection
    who matches the search; it is marked as selected exactly when its
    identifier is the selected one; and its report is never [null], so the
    summary line of the card is always there.  When the identifiers of the
    collection are distinct the report is computed from the daily wage of
    the employee of the card. *)
Theorem grid_cards_have_reports (F : Formatter) tza L term selected selectedMonth :
  map (fun card => fst (fst card))
      (employeeGrid tza L term selected selectedMonth)
  = filteredEmployees (employees L) term
  /\ (forall e isSelected report,
        In (e, isSelected, report)
           (employeeGrid tza L term selected selectedMonth) ->
        In e (employees L) /\ matches term e
        /\ (isSelected = true <-> selected = id e)
        /\ exists r,
             report = Some r
             /\ employeeId r = id e /\ month r = selectedMonth
             /\ cardSummary report <> []
             /\ (NoDup (map id (employees L)) ->
                 baseWages r = dailyWage e * Z.of_nat (totalDaysWorked r))).
Proof.
  unfold employeeGrid. split.
  - rewrite map_map. cbn [fst]. apply map_id.
  - intros e isSelected report Hin.
    apply in_map_iff in Hin. destruct Hin as (e' & [= -> <- <-] & He).
    unfold filteredEmployees in He. apply filter_In in He.
    destruct He as [He Hm]. apply search_test_matches in Hm.
    split; [assumption|]. split; [assumption|].
    split; [apply String.eqb_eq|].
    destruct (generateMonthlyReport tza L (id e) selectedMonth) as [r|] eqn:E.
    + exists r. split; [reflexivity|].
      pose proof E as E'. report_fields E'.
      split; [reflexivity|]. split; [reflexivity|].
      split; [discriminate|].
      intros Hnd.
      apply (base_wages_of_found _ _ _ _ _ _ (find_id_unique _ _ Hnd He) E).
    + unfold generateMonthlyReport in E.
      destruct (find _ (employees L)) as [e0|] eqn:Hfind.
      * destruct (fold_left _ _ _). discriminate.
      * now elim (proj1 (find_id_none _ _) Hfind e He).
Qed.

Lemma grid_cards_have_reports_witness :
  map (fun card => (name (fst (fst card)), snd (fst card), cardSummary (snd card)))
      (employeeGrid JSDate.tzIST january "mason" "e1" "2024-01")
  = [("Asha Devi"%string, true,
      [("4 days worked " ++ bullet ++ " +Rs1570")%string;
       "(+Rs770 extra)"%string; "(Paid: Rs1000)"%string])]
  /\ forall e isSelected report,
       In (e, isSelected, report)
          (employeeGrid JSDate.tzIST january "mason" "e1" "2024-01") ->
       report <> None.
Proof.
  split; [vm_compute; reflexivity|].
  intros e isSelected report Hin.
  destruct (proj2 (grid_cards_have_reports plain_formatter JSDate.tzIST january
                     "mason" "e1" "2024-01") e isSelected report Hin)
    as (_ & _ & _ & r & -> & _).
  discriminate.
Defined.

(** ** The sign of the balance *)

(** The text of a balance is the same for an amount and for its opposite:
    the sign is not in it.  The heading of the balance card tells the three
    cases apart: "Fully Paid" for zero, "Balance Due" above zero, "Overpaid"
    below. *)
Theorem balance_sign_in_label_only (F : Formatter) (x : Z) :
  formatBalance (- x) = formatBalance x
  /\ (x <> 0 -> balanceLabel (- x) <> balanceLabel x)
  /\ (balanceLabel x = "Fully Paid"%string <-> x = 0)
  /\ (balanceLabel x = "Balance Due"%string <-> 0 < x)
  /\ (balanceLabel x = "Overpaid"%string <-> x < 0).
Proof.
  unfold formatBalance, balanceLabel.
  destruct (Z.eqb_spec x 0) as [->|Hx]; [cbn; repeat split; try discriminate; lia|].
  destruct (Z.eqb_spec (- x) 0) as [|_]; [lia|].
  destruct (Z.ltb_spec 0 x), (Z.ltb_spec 0 (- x)); try lia;
    (split; [rewrite ?Z.abs_opp, ?Z.abs_eq, ?Z.abs_neq by lia;
             rewrite ?Z.opp_involutive; reflexivity|]);
    repeat split; try discriminate; try lia; try reflexivity.
Qed.

Lemma balance_sign_in_label_only_witness :
  formatBalance (- 250) = formatBalance 250
  /\ balanceLabel (- 250) <> balanceLabel 250
  /\ balanceLabel (- 250) = "Overpaid"%string.
Proof.
  destruct (balance_sign_in_label_only plain_formatter 250) as (H1 & H2 & _).
  split; [exact H1|]. split; [apply H2; lia | reflexivity].
Defined.

(** ** The payment calculation on the screen *)

Lemma category_row_In (F : Formatter) label unit records :
  records <> [] ->
  In ((label ++ " (" ++ JSString.of_nat (List.length records) ++ unit ++ ")")%string,
      ("+" ++ formatCurrency (category_amount records))%string)
     (category_row label unit records).
Proof.
  intros Hne. unfold category_row. destruct records; [contradiction|].
  now left.
Qed.

(** Without additional earnings the payment calculation of the screen has
    its five fixed rows and no category row, whatever the category lists
    hold.  For a report of the engine whose custom amounts are not
    negative, a category with a positive itemised amount has its row on the
    screen, with the count and the amount of its line in the payslip. *)
Theorem screen_itemises_positive_categories (F : Formatter)
    (employee : Employee) :
  (forall r,
     additionalEarnings r <= 0 ->
     map fst (paymentCalculation employee r)
     = [("Base Wages (" ++ JSString.of_nat (totalDaysWorked r) ++ " days "
          ++ JSString.times_sign ++ " "
          ++ formatCurrency (dailyWage employee) ++ ")")%string;
        "Total Earnings"; "Advances Taken"; "Salary Paid"; "Final Amount"]%string)
  /\ (forall tza L eid m r label unit records,
        generateMonthlyReport tza L eid m = Some r ->
        (forall a, In a (attendanceDetails r) -> 0 <= custom_or_zero a) ->
        In (label, unit, records)
           [("Overtime", " days", otRecords r);
            ("Half Days", " days", halfDayRecords r);
            ("Custom Payments", "", customPaymentRecords r)]%string ->
        0 < category_amount records ->
        In ((label ++ " (" ++ JSString.of_nat (List.length records) ++ unit
             ++ ")")%string,
            ("+" ++ formatCurrency (category_amount records))%string)
           (paymentCalculation employee r)
        /\ category_line label unit records
           = (label ++ " (" ++ JSString.of_nat (List.length records) ++ unit
              ++ "): " ++ formatCurrency (category_amount records))%string).
Proof.
  split.
  - intros r Hle. unfold paymentCalculation.
    destruct (Z.ltb_spec 0 (additionalEarnings r)); [lia|]. reflexivity.
  - intros tza L eid m r label unit records H Hpos Hcat Hamount.
    assert (Hne : records <> [])
      by (intros ->; cbn in Hamount; lia).
    assert (Hsum : category_amount (otRecords r) + category_amount (halfDayRecords r)
                   + category_amount (customPaymentRecords r)
                   <= additionalEarnings r).
    { pose proof H as H'. report_fields H'. rewrite !category_amount_sumZ.
      apply categories_below_total.
      intros a Ha. apply Hpos.
      pose proof H as H''. report_fields H''. exact Ha. }
    assert (Hnonneg : forall xs, incl xs (attendanceDetails r) ->
                                 0 <= category_amount xs).
    { intros xs Hincl. rewrite category_amount_sumZ.
      induction xs as [|a xs IH]; [cbn; lia|].
      cbn [map]. rewrite sumZ_cons.
      pose proof (Hpos a (Hincl a (or_introl eq_refl))).
      assert (0 <= sumZ (map custom_or_zero xs))
        by (apply IH; intros b Hb; apply Hincl; now right).
      lia. }
    assert (Hot : 0 <= category_amount (otRecords r)).
    { apply Hnonneg. pose proof H as H'. report_fields H'. apply incl_filter. }
    assert (Hhalf : 0 <= category_amount (halfDayRecords r)).
    { apply Hnonneg. pose proof H as H'. report_fields H'. apply incl_filter. }
    assert (Hcus : 0 <= category_amount (customPaymentRecords r)).
    { apply Hnonneg. pose proof H as H'. report_fields H'. apply incl_filter. }
    assert (Hextra : 0 < additionalEarnings r).
    { destruct Hcat as [[= <- <- <-]|[[= <- <- <-]|[[= <- <- <-]|[]]]]; lia. }
    split.
    + unfold paymentCalculation.
      destruct (Z.ltb_spec 0 (additionalEarnings r)); [|lia].
      apply in_or_app. right. apply in_or_app. left.
      destruct Hcat as [[= <- <- <-]|[[= <- <- <-]|[[= <- <- <-]|[]]]].
      * apply in_or_app. left. now apply category_row_In.
      * apply in_or_app. right. apply in_or_app. left.
        now apply category_row_In.
      * apply in_or_app. right. apply in_or_app. right.
        apply in_or_app. left. now apply category_row_In.
    + unfold category_line. destruct records; [contradiction|]. reflexivity.
Qed.

Lemma screen_itemises_positive_categories_witness :
  match generateMonthlyReport JSDate.tzIST january "e1" "2024-01" with
  | Some r =>
      In ("Overtime (1 days)"%string, "+Rs300"%string) (paymentCalculation asha r)
  | None => False
  end.
Proof.
  destruct (generateMonthlyReport JSDate.tzIST january "e1" "2024-01")
    as [r|] eqn:E; [|vm_compute in E; discriminate E].
  pose proof (proj2 (screen_itemises_positive_categories plain_formatter asha)
                JSDate.tzIST january "e1"%string "2024-01"%string r
                "Overtime"%string " days"%string (otRecords r) E) as H.
  vm_compute in E. injection E as <-.
  apply H.
  - intros a Ha. cbn in Ha.
    repeat (destruct Ha as [<-|Ha]; [vm_compute; discriminate|]). destruct Ha.
  - now left.
  - reflexivity.
Defined.

(** ** The detail sections of the payslip *)

Lemma lines_from_last (l cur : string) :
  JSString.one_line l = true -> JSString.lines_from cur l = [(cur ++ l)%string].
Proof.
  revert cur; induction l as [|c l IH]; intros cur Hl.
  - cbn. now rewrite append_empty_r.
  - cbn [JSString.one_line] in Hl. apply andb_true_iff in Hl.
    destruct Hl as [Hc Hl]. cbn [JSString.lines_from].
    destruct (Ascii.eqb c (ascii_of_nat 10)); [discriminate|].
    rewrite (IH _ Hl), append_assoc. reflexivity.
Qed.

Lemma lines_join_last (l : string) :
  JSString.one_line l = true ->
  JSString.lines (JSString.join JSString.nl [l]) = [l].
Proof. intros Hl. unfold JSString.lines. cbn. now apply lines_from_last. Qed.

Lemma join_join (x x' : string) (xs : list string) (r : string) (rest : list string) :
  JSString.join JSString.nl
    (JSString.join JSString.nl (x :: x' :: xs) :: r :: rest)
  = JSString.join JSString.nl
      (x :: JSString.join JSString.nl (x' :: xs) :: r :: rest).
Proof.
  unfold JSString.join. cbn [concat]. now rewrite !append_assoc.
Qed.

(** A list of entries joined with line feeds takes, inside the payslip,
    one line per entry, and one empty line when there is no entry. *)
Lemma lines_join_block (xs : list string) (r : string) (rest : list string) :
  Forall (fun x => JSString.one_line x = true) xs ->
  JSString.lines
    (JSString.join JSString.nl (JSString.join JSString.nl xs :: r :: rest))
  = block xs ++ JSString.lines (JSString.join JSString.nl (r :: rest)).
Proof.
  induction xs as [|x xs IH]; intros Hall.
  - now rewrite lines_join_cons.
  - inversion Hall as [|? ? Hx Hxs]; subst.
    destruct xs as [|x' xs].
    + change (JSString.join JSString.nl [x]) with x.
      now rewrite (lines_join_cons _ _ _ Hx).
    + rewrite join_join, (lines_join_cons _ _ _ Hx), (IH Hxs). reflexivity.
Qed.

Lemma block_map_length {A : Type} (f : A -> string) (xs : list A) :
  List.length (block (map f xs)) = Nat.max 1 (List.length xs).
Proof. destruct xs; cbn [map block List.length]; rewrite ?length_map; lia. Qed.

Section PayslipDetails.

Context {F : Formatter}.

(** The formatter writes an amount on one line. *)
Hypothesis formatCurrency_one_line :
  forall n, JSString.one_line (formatCurrency n) = true.

Lemma one_line_formatBalance (x : Z) :
  JSString.one_line (formatBalance x) = true.
Proof.
  unfold formatBalance.
  destruct (x =? 0); [apply formatCurrency_one_line|].
  destruct (0 <? x); apply one_line_append;
    solve [reflexivity | apply formatCurrency_one_line].
Qed.

Lemma one_line_attendance_line (a : AttendanceRecord) :
  JSString.one_line (toLocaleDateString (att_date a)) = true ->
  (forall t, customType a = Some t -> JSString.one_line t = true) ->
  JSString.one_line (attendance_line a) = true.
Proof.
  intros Hdate Htype. unfold attendance_line.
  repeat apply one_line_append; auto with one_line.
  - destruct (present a); reflexivity.
  - destruct (truthy_string (customType a)); [|reflexivity].
    destruct (customType a) as [t|]; auto 10 with one_line.
  - destruct (truthy_number (customAmount a)); auto with one_line.
Qed.

(** From line 29 on, when no field that is printed holds a line feed, the
    payslip is: an empty line, the heading and the lines of the attendance
    (one per record of the month, in the order of the report), an empty
    line, the heading and the lines of the advances, an empty line, the
    heading and the lines of the salary payments, an empty line, the date
    of the day, and a last line of four spaces.  A section without record
    keeps its heading, followed by an empty line. *)
Theorem payslip_detail_lines selectedMonth (e : Employee) (r : MonthlyReport) :
  JSString.one_line (name e) = true ->
  JSString.one_line (designation e) = true ->
  JSString.one_line (contactNumber e) = true ->
  JSString.one_line (toLocaleMonthYear selectedMonth) = true ->
  JSString.one_line today = true ->
  (forall a, In a (attendanceDetails r) ->
     JSString.one_line (toLocaleDateString (att_date a)) = true
     /\ forall t, customType a = Some t -> JSString.one_line t = true) ->
  (forall a, In a (advanceDetails r) ->
     JSString.one_line (toLocaleDateString (adv_date a)) = true
     /\ JSString.one_line (adv_description a) = true) ->
  (forall p, In p (salaryPaymentDetails r) ->
     JSString.one_line (toLocaleDateString (paymentDate p)) = true
     /\ JSString.one_line (pay_description p) = true) ->
  skipn 29 (JSString.lines (reportContent selectedMonth e r))
  = [""; "ATTENDANCE DETAILS:"]%string
    ++ block (map attendance_line (attendanceDetails r))
    ++ [""; "ADVANCE DETAILS:"]%string
    ++ block (map advance_line (advanceDetails r))
    ++ [""; "SALARY PAYMENT DETAILS:"]%string
    ++ block (map payment_line (salaryPaymentDetails r))
    ++ [""; "Generated on: " ++ today; "    "]%string
  /\ List.length (JSString.lines (reportContent selectedMonth e r))
     = (38 + Nat.max 1 (List.length (attendanceDetails r))
        + Nat.max 1 (List.length (advanceDetails r))
        + Nat.max 1 (List.length (salaryPaymentDetails r)))%nat.
Proof.
  intros Hname Hdes Hcontact Hperiod Htoday Hatt Hadv Hpay.
  pose proof (one_line_category_line formatCurrency_one_line) as Hcat.
  pose proof one_line_formatBalance as Hbal.
  assert (Latt : Forall (fun x => JSString.one_line x = true)
                        (map attendance_line (attendanceDetails r))).
  { apply Forall_map, Forall_forall. intros a Ha.
    destruct (Hatt a Ha). now apply one_line_attendance_line. }
  assert (Ladv : Forall (fun x => JSString.one_line x = true)
                        (map advance_line (advanceDetails r))).
  { apply Forall_map, Forall_forall. intros a Ha. unfold advance_line.
    destruct (Hadv a Ha). auto 10 with one_line. }
  assert (Lpay : Forall (fun x => JSString.one_line x = true)
                        (map payment_line (salaryPaymentDetails r))).
  { apply Forall_map, Forall_forall. intros p Hp. unfold payment_line.
    destruct (Hpay p Hp). auto 10 with one_line. }
  unfold reportContent.
  do 31 (rewrite lines_join_cons by auto 10 with one_line).
  rewrite (lines_join_block _ _ _ Latt).
  do 2 (rewrite lines_join_cons by auto 10 with one_line).
  rewrite (lines_join_block _ _ _ Ladv).
  do 2 (rewrite lines_join_cons by auto 10 with one_line).
  rewrite (lines_join_block _ _ _ Lpay).
  rewrite lines_join_cons by reflexivity.
  rewrite lines_join_cons by auto with one_line.
  rewrite lines_join_last by reflexivity.
  split; [reflexivity|].
  repeat (cbn [List.length app];
          rewrite ?length_app, ?block_map_length).
  lia.
Qed.

End PayslipDetails.

Lemma payslip_detail_lines_witness :
  match generateMonthlyReport JSDate.tzIST january "e2" "2024-01" with
  | Some r =>
      skipn 29 (JSString.lines (reportContent "2024-01" ravi r))
      = [""; "ATTENDANCE DETAILS:"; "";
         ""; "ADVANCE DETAILS:"; "2024-01-10: Rs900 - rent";
         ""; "SALARY PAYMENT DETAILS:"; "";
         ""; "Generated on: 2024-02-05"; "    "]%string
  | None => False
  end.
Proof.
  destruct (generateMonthlyReport JSDate.tzIST january "e2" "2024-01")
    as [r|] eqn:E; [|vm_compute in E; discriminate E].
  vm_compute in E. injection E as <-.
  match goal with
  | |- context [reportContent _ _ ?r] =>
      destruct (@payslip_detail_lines plain_formatter plain_currency_one_line
                  "2024-01" ravi r) as [H _]
  end.
  - reflexivity.
  - reflexivity.
  - reflexivity.
  - reflexivity.
  - reflexivity.
  - intros a [].
  - intros a [<-|[]]. split; reflexivity.
  - intros p [].
  - rewrite H. reflexivity.
Defined.
